(** * st-pdf-foundry: the PDF operations of [streamlit_app.py]

    A shallow embedding of [flatten_pdf], [restrict_copying_pdf],
    [convert_to_image_pdf] and [main].  The permission mask is plain
    integer arithmetic and is embedded as a function on [Z]; the calls
    into pypdf, PyMuPDF and Pillow are taken as interfaces whose
    operations may raise, and the program is written over them in an
    exception monad.  One run of the Streamlit script is a function from
    what the widgets return and the session to the session it leaves and
    the calls that show something. *)

From Stdlib Require Import ZArith List String Bool Lia.
From Stdlib Require Import Strings.Byte.
From Stdlib Require DecimalString.
Import ListNotations.

Local Open Scope Z_scope.

(** ** Python values and exceptions *)

Definition bytes := list Byte.byte.

(** The exceptions the modelled code can see: the two the interpreter
    itself raises on the paths of interest, and whatever a library call
    raises. *)
Inductive exn : Type :=
| IndexError
| AttributeError
| LibraryError (msg : string).

Inductive result (A : Type) : Type :=
| Ok (a : A)
| Raise (e : exn).

Arguments Ok {A} a.
Arguments Raise {A} e.

Definition bind {A B : Type} (m : result A) (k : A -> result B) : result B :=
  match m with
  | Ok a => k a
  | Raise e => Raise e
  end.

Notation "x <- m ;; k" := (bind m (fun x => k))
  (at level 61, m at next level, right associativity).

(** A call made only for its effect: [None] when it returns, [Some e]
    when it raises [e]. *)
Definition returning {A : Type} (raised : option exn) (a : A) : result A :=
  match raised with
  | None => Ok a
  | Some e => Raise e
  end.

(** [for x in xs: body], with the loop-carried state [s]. *)
Fixpoint for_each {A S : Type} (xs : list A) (body : S -> A -> result S)
    (s : S) : result S :=
  match xs with
  | [] => Ok s
  | x :: xs' => s' <- body s x ;; for_each xs' body s'
  end.

(** ** The permission mask (lines 47-63 of [restrict_copying_pdf]) *)

(** Python's [permissions |= k] on unbounded integers is [Z.lor]. *)
Definition permissions (allow_interactive allow_text_selection : bool) : Z :=
  let permissions := 0 in
  let permissions := Z.lor permissions 4 in
  let permissions := Z.lor permissions 2048 in
  let permissions :=
    if allow_text_selection then
      let permissions := Z.lor permissions 16 in
      Z.lor permissions 32
    else permissions in
  let permissions :=
    if allow_interactive then
      let permissions := Z.lor permissions 256 in
      let permissions := Z.lor permissions 512 in
      Z.lor permissions 1024
    else permissions in
  Z.lor permissions 64.

(** The bits granted whatever the flags are, and the largest mask. *)
Definition baseline : Z := Z.lor (Z.lor 4 2048) 64.
Definition all_listed : Z :=
  fold_right Z.lor 0 [4; 2048; 64; 16; 32; 256; 512; 1024].

(** Zero-based positions of the listed bits; the source's comments count
    bits from 1, so its "bit 3" is position 2. *)
Definition listed_positions : list Z := [2; 4; 5; 6; 8; 9; 10; 11].

(** ** Calling conventions *)

(** A keyword parameter with a default: [None] is the argument left out
    at the call site. *)
Definition arg {A : Type} (default : A) (given : option A) : A :=
  match given with
  | Some a => a
  | None => default
  end.

(** [range(n)]. *)
Definition range (n : nat) : list nat := seq 0 n.

(** [xs[i]]; past the end Python raises [IndexError]. *)
Definition index {A : Type} (xs : list A) (i : nat) : result A :=
  match nth_error xs i with
  | Some a => Ok a
  | None => Raise IndexError
  end.

(** ** pypdf *)

(** What a [PdfWriter] has been asked to do ([EmptyString] is Python's
    empty string literal).  The object is opaque to the
    application, so its state is the sequence of calls it has received,
    oldest first. *)
Inductive writer_call (page : Type) : Type :=
| add_page (p : page)
| encrypt (user_password owner_password : string) (use_128bit : bool)
    (permissions_flag : Z).

Arguments add_page {page} p.
Arguments encrypt {page} user_password owner_password use_128bit
  permissions_flag.

Class PyPdf : Type := {
  (** a page object *)
  page : Type;
  (** [PdfReader(io.BytesIO(b)).pages], read out in order *)
  reader_pages : bytes -> result (list page);
  (** whether a call raises on a writer that has received the given calls *)
  writer_raises : list (writer_call page) -> writer_call page -> option exn;
  (** [writer.write(buf); buf.seek(0); buf.getvalue()] *)
  writer_write : list (writer_call page) -> result bytes
}.

Section Pypdf.
Context {pypdf : PyPdf}.

Definition PdfWriter : Type := list (writer_call page).

(** [PdfWriter()] *)
Definition new_writer : PdfWriter := [].

(** [writer.c(...)]: the call is recorded unless it raises. *)
Definition call (writer : PdfWriter) (c : writer_call page)
  : result PdfWriter :=
  returning (writer_raises writer c) (writer ++ [c]).

(** The pages a writer holds, in the order they were added. *)
Definition writer_pages (writer : PdfWriter) : list page :=
  flat_map (fun c => match c with add_page p => [p] | _ => [] end) writer.

(** The permission masks a writer was encrypted with. *)
Definition writer_permissions (writer : PdfWriter) : list Z :=
  flat_map
    (fun c => match c with encrypt _ _ _ flag => [flag] | _ => [] end)
    writer.

(** A writer on which none of the calls [cs], made in turn, raises. *)
Fixpoint accepts (writer : PdfWriter) (cs : list (writer_call page))
  : bool :=
  match cs with
  | [] => true
  | c :: cs' =>
      match writer_raises writer c with
      | None => accepts (writer ++ [c]) cs'
      | Some _ => false
      end
  end.

(** *** [restrict_copying_pdf] *)

(** Lines 39-72: the writer as it stands after [writer.encrypt]. *)
Definition protected_writer (pdf_bytes : bytes)
    (allow_interactive allow_text_selection : bool) : result PdfWriter :=
  reader <- reader_pages pdf_bytes ;;
  let writer := new_writer in
  writer <- for_each reader (fun writer page => call writer (add_page page))
              writer ;;
  let permissions := permissions allow_interactive allow_text_selection in
  let owner_password := "owner_protection_key"%string in
  call writer (encrypt EmptyString owner_password true permissions).

(** The calls a writer is expected to receive for a document with the
    given pages: each page in turn, then the encryption. *)
Definition protection_calls (pages : list page)
    (allow_interactive allow_text_selection : bool)
  : list (writer_call page) :=
  map add_page pages ++
  [encrypt EmptyString "owner_protection_key"%string true
     (permissions allow_interactive allow_text_selection)].

(** The whole function; lines 74-78 serialise the writer. *)
Definition restrict_copying_pdf (pdf_bytes : bytes)
    (allow_interactive allow_text_selection : option bool) : result bytes :=
  let allow_interactive := arg false allow_interactive in
  let allow_text_selection := arg false allow_text_selection in
  writer <- protected_writer pdf_bytes allow_interactive
              allow_text_selection ;;
  writer_write writer.

End Pypdf.

(** ** PyMuPDF and Pillow *)

Class Raster : Type := {
  Document : Type;
  Page : Type;
  float : Type;
  Matrix : Type;
  Pixmap : Type;
  Image : Type;
  (** [fitz.open(stream=b, filetype=t)] *)
  fitz_open : bytes -> string -> result Document;
  (** [doc.page_count], a count *)
  page_count : Document -> nat;
  (** [doc.load_page(n)] *)
  load_page : Document -> nat -> result Page;
  (** [x / y] on numbers *)
  truediv : Z -> Z -> float;
  (** [fitz.Matrix(a, b)] *)
  fitz_Matrix : float -> float -> Matrix;
  (** [page.get_pixmap(matrix=m)] *)
  get_pixmap : Page -> Matrix -> result Pixmap;
  (** [pix.tobytes(fmt)] *)
  tobytes : Pixmap -> string -> result bytes;
  (** [Image.open(io.BytesIO(b))] *)
  Image_open : bytes -> result Image;
  (** [img.save(buf, format=fmt); buf.seek(0)], giving the buffer *)
  Image_save : Image -> string -> result bytes;
  (** [doc.close()] *)
  close : Document -> option exn
}.

Section Convert.
Context {pypdf : PyPdf} {raster : Raster}.

(** What [convert_to_image_pdf] returns: a list of images or PDF bytes. *)
Inductive converted : Type :=
| image_list (images : list Image)
| pdf_bytes_of (b : bytes).

(** Lines 102-110: page [page_num] rendered to an image. *)
Definition render_page (pdf_document : Document) (dpi : Z) (page_num : nat)
  : result Image :=
  page <- load_page pdf_document page_num ;;
  let mat := fitz_Matrix (truediv dpi 72) (truediv dpi 72) in
  pix <- get_pixmap page mat ;;
  img_data <- tobytes pix "png"%string ;;
  Image_open img_data.

(** The page made from an image in lines 117-123: the image saved as a
    PDF, read back, and its first page taken. *)
Definition image_page (img : Image) : result page :=
  img_buffer <- Image_save img "PDF"%string ;;
  img_reader <- reader_pages img_buffer ;;
  index img_reader 0.

(** Page [page_num] as the one-page image PDF made from it: the page
    handed to [writer.add_page] in iteration [page_num]. *)
Definition page_image (pdf_document : Document) (dpi : Z) (page_num : nat)
  : result page :=
  img <- render_page pdf_document dpi page_num ;;
  image_page img.

(** The loop body, lines 101-123, on the loop-carried [images] and
    [writer]. *)
Definition convert_page (pdf_document : Document) (dpi : Z)
    (get_images : bool) (st : list Image * option PdfWriter)
    (page_num : nat) : result (list Image * option PdfWriter) :=
  let '(images, writer) := st in
  img <- render_page pdf_document dpi page_num ;;
  if get_images then
    Ok (images ++ [img], writer)
  else
    img_buffer <- Image_save img "PDF"%string ;;
    img_reader <- reader_pages img_buffer ;;
    match writer with
    | Some w =>
        p <- index img_reader 0 ;;
        w' <- call w (add_page p) ;;
        Ok (images, Some w')
    | None => Raise AttributeError
    end.

(** Lines 95-126: [images] and [writer] once the document is closed. *)
Definition rasterize (pdf_bytes : bytes) (dpi : Z) (get_images : bool)
  : result (list Image * option PdfWriter) :=
  pdf_document <- fitz_open pdf_bytes "pdf"%string ;;
  let images := [] in
  let writer := if negb get_images then Some new_writer else None in
  st <- for_each (range (page_count pdf_document))
          (convert_page pdf_document dpi get_images) (images, writer) ;;
  _ <- returning (close pdf_document) tt ;;
  Ok st.

(** The whole function; lines 128-135 pick the result. *)
Definition convert_to_image_pdf (pdf_bytes : bytes) (dpi : option Z)
    (get_images : option bool) : result converted :=
  let dpi := arg 150 dpi in
  let get_images := arg false get_images in
  st <- rasterize pdf_bytes dpi get_images ;;
  let '(images, writer) := st in
  if get_images then
    Ok (image_list images)
  else
    match writer with
    | Some w => b <- writer_write w ;; Ok (pdf_bytes_of b)
    | None => Raise AttributeError
    end.

End Convert.

(** ** Page objects *)

(** What the application asks of a pypdf page. *)
Class PageObject (pypdf : PyPdf) : Type := {
  (** [key in page] *)
  page_contains : page -> string -> bool;
  (** [page.merge_page(page2)]: the receiver as the call leaves it *)
  merge_page : page -> page -> result page;
  (** the text of a page, a Python [str] *)
  text : Type;
  (** [hasattr(page, "extract_text")] *)
  hasattr_extract_text : page -> bool;
  (** [page.extract_text()] *)
  extract_text : page -> result text;
  (** the truth value of [t.strip()] *)
  strip_nonempty : text -> bool
}.

Section Flatten.
Context {pypdf : PyPdf} {pages_api : PageObject pypdf}.

(** Lines 17-18: the page as it is handed to [writer.add_page]; a page
    with [/Annots] is first merged with itself, in place. *)
Definition flattened (p : page) : result page :=
  if page_contains p "/Annots"%string then merge_page p p
  else Ok p.

(** Lines 12-19: the writer once every page is added. *)
Definition flattened_writer (pdf_bytes : bytes) : result PdfWriter :=
  reader <- reader_pages pdf_bytes ;;
  let writer := new_writer in
  for_each reader
    (fun writer page =>
       page <- flattened page ;;
       call writer (add_page page))
    writer.

(** The whole function; lines 21-25 serialise the writer. *)
Definition flatten_pdf (pdf_bytes : bytes) : result bytes :=
  writer <- flattened_writer pdf_bytes ;;
  writer_write writer.

End Flatten.

(** [mapM]: the results of [f] on [xs] in order, or the first exception. *)
Fixpoint collect {A B : Type} (f : A -> result B) (xs : list A)
  : result (list B) :=
  match xs with
  | [] => Ok []
  | x :: xs' => y <- f x ;; ys <- collect f xs' ;; Ok (y :: ys)
  end.

(** What an operation behind a button produced in a run: its result when
    the button was clicked and the operation returned, nothing when the
    button was not clicked or the operation raised. *)
Definition ran {A : Type} (clicked : bool) (operation : result A) : option A :=
  if clicked then
    match operation with
    | Ok a => Some a
    | Raise _ => None
    end
  else None.

(** A key of the session after a run: what the run produced, or else what
    was there. *)
Definition updated {A : Type} (produced before : option A) : option A :=
  match produced with
  | Some a => Some a
  | None => before
  end.

(** ** Streamlit *)

(** How Python renders values inside the messages: [str(e)], [str(n)] and
    [f"{n:,}"]. *)
Class PyStr : Type := {
  str_exn : exn -> string;
  str_int : Z -> string;
  format_comma : Z -> string
}.

(** The file the uploader returns: [name], [size] and what [read()] gives
    in this run of the script. *)
Record UploadedFile : Type := {
  name : string;
  size : Z;
  read : bytes
}.

(** What the widgets return in one run of the script, in the order the
    script creates them. *)
Record widgets : Type := {
  file_uploader : option UploadedFile;
  button_flatten : bool;
  checkbox_text_selection : bool;
  checkbox_interactive : bool;
  button_protect : bool;
  slider_dpi : Z;
  button_generate : bool;
  button_convert : bool
}.

(** The dict stored under ["protection_settings"]. *)
Record settings : Type := {
  text_selection : bool;
  interactive : bool
}.

(** ["\n"] *)
Definition newline : string := String (Ascii.ascii_of_nat 10) EmptyString.

Section App.
Context {pypdf : PyPdf} {pages_api : PageObject pypdf} {raster : Raster}
        {py : PyStr}.

(** [st.session_state]: the six keys the script uses; [None] is a key
    that is not in the dict.  The values under ["page_images"] and
    ["image_pdf"] are whatever [convert_to_image_pdf] returned. *)
Record session_state : Type := {
  flattened_pdf : option bytes;
  protected_pdf : option bytes;
  protection_settings : option settings;
  page_images : option converted;
  image_dpi : option Z;
  image_pdf : option converted
}.

(** The session of a new browser tab. *)
Definition empty_session : session_state :=
  {| flattened_pdf := None; protected_pdf := None;
     protection_settings := None; page_images := None;
     image_dpi := None; image_pdf := None |}.

(** What iterating over a [converted] value yields: the images of a list,
    the integers of a bytes object. *)
Inductive element : Type :=
| an_image (img : Image)
| an_int (b : Byte.byte).

Definition elements (v : converted) : list element :=
  match v with
  | image_list images => map an_image images
  | pdf_bytes_of b => map an_int b
  end.

(** [len(v)] *)
Definition len (v : converted) : nat := List.length (elements v).

(** The calls that put something on the page, as the script makes them.
    Calls that only lay the page out ([set_page_config], [logo], [title],
    [header], [subheader], [markdown], [columns], [tabs], [spinner]) are
    not recorded; none of the recorded calls is taken to raise. *)
Inductive ui_event : Type :=
| st_caption (body : string)
| st_success (body : string)
| st_error (body : string)
| st_info (body : string)
| st_warning (body : string)
| st_download_button (label : string) (data : converted)
    (file_name mime : string) (help : option string)
| st_expander (label : string)
| st_image (column : nat) (image : element) (caption : string)
| st_text_area (label : string) (value : text).

(** Lines 191-200: the body of [if st.button("Flatten PDF")]. *)
Definition flatten_clicked (pdf_bytes : bytes) (s : session_state)
  : session_state * list ui_event :=
  match flatten_pdf pdf_bytes with
  | Ok flattened =>
      ({| flattened_pdf := Some flattened;
          protected_pdf := protected_pdf s;
          protection_settings := protection_settings s;
          page_images := page_images s;
          image_dpi := image_dpi s;
          image_pdf := image_pdf s |},
       [st_success "✅ PDF flattened successfully!"])
  | Raise e =>
      (s, [st_error ("❌ Error flattening PDF: " ++ str_exn e)%string])
  end.

(** Lines 236-249. *)
Definition settings_info (allow_text_selection allow_interactive : bool)
  : list string :=
  [ if allow_text_selection then "✅ Text selection allowed"%string
    else "❌ Text selection blocked"%string;
    if allow_interactive then "✅ Interactive elements enabled"%string
    else "❌ Interactive elements disabled"%string ].

(** Lines 217-259: the body of [if st.button("Apply Copy Protection")]. *)
Definition protect_clicked (pdf_bytes : bytes)
    (allow_text_selection allow_interactive : bool) (s : session_state)
  : session_state * list ui_event :=
  match restrict_copying_pdf pdf_bytes (Some allow_interactive)
          (Some allow_text_selection) with
  | Ok protected =>
      ({| flattened_pdf := flattened_pdf s;
          protected_pdf := Some protected;
          protection_settings :=
            Some {| text_selection := allow_text_selection;
                    interactive := allow_interactive |};
          page_images := page_images s;
          image_dpi := image_dpi s;
          image_pdf := image_pdf s |},
       [st_success "✅ Copy protection applied successfully!";
        st_info
          ("🔧 Applied settings:" ++ newline ++
           String.concat newline
             (map (fun setting => "- " ++ setting)
                (settings_info allow_text_selection allow_interactive)))%string])
  | Raise e =>
      (s, [st_error ("❌ Error applying copy protection: " ++ str_exn e)%string])
  end.

(** Lines 276-290: the body of [if st.button("Generate Images")]. *)
Definition generate_clicked (pdf_bytes : bytes) (slider : Z)
    (s : session_state) : session_state * list ui_event :=
  match convert_to_image_pdf pdf_bytes (Some slider) (Some true) with
  | Ok images =>
      ({| flattened_pdf := flattened_pdf s;
          protected_pdf := protected_pdf s;
          protection_settings := protection_settings s;
          page_images := Some images;
          image_dpi := Some slider;
          image_pdf := image_pdf s |},
       [st_success "✅ Images generated successfully!";
        st_info ("ℹ️ Generated " ++ str_int (Z.of_nat (len images))
                 ++ " image(s)")%string])
  | Raise e =>
      (s, [st_error ("❌ Error generating images: " ++ str_exn e)%string])
  end.

(** Lines 293-313: the body of [if st.button("Convert to Image PDF")]. *)
Definition convert_clicked (pdf_bytes : bytes) (slider : Z)
    (s : session_state) : session_state * list ui_event :=
  match convert_to_image_pdf pdf_bytes (Some slider) None with
  | Ok pdf =>
      ({| flattened_pdf := flattened_pdf s;
          protected_pdf := protected_pdf s;
          protection_settings := protection_settings s;
          page_images := page_images s;
          image_dpi := Some slider;
          image_pdf := Some pdf |},
       [st_success "✅ PDF converted to image-based PDF successfully!";
        st_info ("ℹ️ Each page converted to " ++ str_int slider
                 ++ " DPI image")%string])
  | Raise e =>
      (s, [st_error ("❌ Error converting to image PDF: " ++ str_exn e)%string])
  end.

(** [enumerate(xs)], counting from [i]. *)
Fixpoint enumerate {A : Type} (i : nat) (xs : list A) : list (nat * A) :=
  match xs with
  | [] => []
  | x :: xs' => (i, x) :: enumerate (S i) xs'
  end.

(** [st.session_state.get("image_dpi", "150")], as a message shows it. *)
Definition dpi_info (s : session_state) : string :=
  match image_dpi s with
  | Some dpi => str_int dpi
  | None => "150"%string
  end.

(** Lines 340-344. *)
Definition help_text (s : session_state) : string :=
  match protection_settings s with
  | Some st =>
      let text_status :=
        if text_selection st then "✅"%string else "❌"%string in
      let interactive_status :=
        if interactive st then "✅"%string else "❌"%string in
      ("Text selection: " ++ text_status ++ " | Interactive elements: "
       ++ interactive_status)%string
  | None => "Copy-protected PDF with custom permissions"%string
  end.

(** Lines 371-382: the grid of images, two columns wide. *)
Definition image_grid (images : converted) (dpi_info : string)
  : list ui_event :=
  map
    (fun '(idx, img) =>
       st_image (idx mod 2) img
         ("Page " ++ str_int (Z.of_nat (idx + 1)) ++ " (" ++ dpi_info
          ++ " DPI)")%string)
    (enumerate 0 (elements images)).

(** Lines 315-382: the downloads column. *)
Definition downloads (uploaded_file : UploadedFile) (pdf_bytes : bytes)
    (s : session_state) : list ui_event :=
  [st_download_button "📄 Download Original PDF" (pdf_bytes_of pdf_bytes)
     ("original_" ++ name uploaded_file)%string "application/pdf" None]
  ++ match flattened_pdf s with
     | Some data =>
         [st_download_button "📄 Download Flattened PDF" (pdf_bytes_of data)
            ("flattened_" ++ name uploaded_file)%string "application/pdf"
            None]
     | None => []
     end
  ++ match protected_pdf s with
     | Some data =>
         [st_download_button "🔒 Download Copy-Protected PDF"
            (pdf_bytes_of data)
            ("protected_" ++ name uploaded_file)%string "application/pdf"
            (Some (help_text s))]
     | None => []
     end
  ++ match image_pdf s with
     | Some data =>
         [st_download_button "🖼️ Download Image PDF" data
            ("image_" ++ name uploaded_file)%string "application/pdf"
            (Some ("PDF with pages converted to " ++ dpi_info s
                   ++ " DPI images")%string)]
     | None => []
     end
  ++ match page_images s with
     | Some images =>
         st_expander
           ("🖼️ Preview Generated Images ("
            ++ str_int (Z.of_nat (len images)) ++ " page(s))")%string
         :: image_grid images (dpi_info s)
     | None => []
     end.

(** Lines 388-402: the text of the first page. *)
Definition preview (reader : list page) : list ui_event :=
  match
    (first_page <- index reader 0 ;;
     if hasattr_extract_text first_page then
       text_content <- extract_text first_page ;;
       if strip_nonempty text_content then
         Ok [st_expander "📖 First Page Text Content";
             st_text_area "Text from first page:" text_content]
       else
         Ok [st_info
               "ℹ️ No extractable text found on the first page (might be image-based)"]
     else Ok [])
  with
  | Ok shown => shown
  | Raise e =>
      [st_warning ("⚠️ Could not extract preview: " ++ str_exn e)%string]
  end.

(** One run of [main] (lines 138-447): the session it leaves and what it
    shows. *)
Definition main (w : widgets) (s : session_state)
  : session_state * list ui_event :=
  let top := [st_caption "flattening your PDFs"] in
  match file_uploader w with
  | Some uploaded_file =>
      let sidebar :=
        [st_success ("✅ Uploaded: " ++ name uploaded_file)%string;
         st_caption ("Size: " ++ format_comma (size uploaded_file)
                     ++ " bytes")%string] in
      let pdf_bytes := read uploaded_file in
      match reader_pages pdf_bytes with
      | Ok reader =>
          let num_pages := List.length reader in
          let info :=
            [st_info ("📊 PDF Info: " ++ str_int (Z.of_nat num_pages)
                      ++ " page(s)")%string] in
          let '(s, flatten_shown) :=
            if button_flatten w then flatten_clicked pdf_bytes s
            else (s, []) in
          let allow_text_selection := checkbox_text_selection w in
          let allow_interactive := checkbox_interactive w in
          let '(s, protect_shown) :=
            if button_protect w then
              protect_clicked pdf_bytes allow_text_selection
                allow_interactive s
            else (s, []) in
          let slider := slider_dpi w in
          let '(s, generate_shown) :=
            if button_generate w then generate_clicked pdf_bytes slider s
            else (s, []) in
          let '(s, convert_shown) :=
            if button_convert w then convert_clicked pdf_bytes slider s
            else (s, []) in
          (s,
           top ++ sidebar ++ info ++ flatten_shown ++ protect_shown
           ++ generate_shown ++ convert_shown
           ++ downloads uploaded_file pdf_bytes s ++ preview reader)
      | Raise e =>
          (s,
           top ++ sidebar
           ++ [st_error ("❌ Error reading PDF: " ++ str_exn e)%string;
               st_info "Please make sure you uploaded a valid PDF file."])
      end
  | None =>
      (s,
       top
       ++ [st_info
             "👈 Please upload a PDF file in the sidebar to get started";
           st_expander "ℹ️ What can this app do?"])
  end.

(** The download buttons among what is shown. *)
Definition is_download (ev : ui_event) : bool :=
  match ev with
  | st_download_button _ _ _ _ _ => true
  | _ => false
  end.

(** The messages among what is shown. *)
Definition is_message (ev : ui_event) : bool :=
  match ev with
  | st_success _ | st_error _ | st_info _ => true
  | _ => false
  end.

(** A session whose keys agree with each other: the protected bytes come
    with their settings; the images are a list of images, the image PDF is
    bytes, and both come with the DPI. *)
Definition consistent (s : session_state) : Prop :=
  (protected_pdf s = None <-> protection_settings s = None) /\
  (forall v, page_images s = Some v ->
             (exists images, v = image_list images) /\ image_dpi s <> None) /\
  (forall v, image_pdf s = Some v ->
             (exists b, v = pdf_bytes_of b) /\ image_dpi s <> None).

(** A call that gets what it is written for: [st.image] an image,
    [st.download_button] bytes, and as help text not the fallback of
    line 344. *)
Definition well_formed (ev : ui_event) : Prop :=
  match ev with
  | st_image _ (an_int _) _ => False
  | st_download_button _ (image_list _) _ _ _ => False
  | st_download_button _ _ _ _ (Some help) =>
      help <> "Copy-protected PDF with custom permissions"%string
  | _ => True
  end.

(** The session after a sequence of runs, Streamlit keeping it from one
    run to the next. *)
Fixpoint runs (ws : list widgets) (s : session_state) : session_state :=
  match ws with
  | [] => s
  | w :: ws' => runs ws' (fst (main w s))
  end.

End App.

(** ** A small concrete engine

    Every byte of a document is one page; an empty document is rejected.
    A writer refuses a page once it is encrypted, and serialises to the
    pages it holds.  Used to run the definitions on concrete inputs. *)
Module Toy.

Definition not_a_pdf : exn := LibraryError "not a PDF".

Definition parse (b : bytes) : result (list Byte.byte) :=
  match b with
  | [] => Raise not_a_pdf
  | _ => Ok b
  end.

Definition encrypted (w : list (writer_call Byte.byte)) : bool :=
  existsb (fun c => match c with encrypt _ _ _ _ => true | _ => false end) w.

Definition raises (w : list (writer_call Byte.byte))
    (c : writer_call Byte.byte) : option exn :=
  match c with
  | add_page _ =>
      if encrypted w then Some (LibraryError "encrypted") else None
  | encrypt _ _ _ _ => None
  end.

Definition held (w : list (writer_call Byte.byte)) : bytes :=
  flat_map (fun c => match c with add_page p => [p] | _ => [] end) w.

#[export] Instance pypdf : PyPdf := {|
  page := Byte.byte;
  reader_pages := parse;
  writer_raises := raises;
  writer_write := fun w => Ok (held w)
|}.

#[export] Instance raster : Raster := {|
  Document := bytes;
  Page := Byte.byte;
  float := Z * Z;
  Matrix := (Z * Z) * (Z * Z);
  Pixmap := Byte.byte;
  Image := Byte.byte;
  fitz_open := fun b _ => parse b;
  page_count := fun d => List.length d;
  load_page := fun d n => index d n;
  truediv := fun x y => (x, y);
  fitz_Matrix := fun a b => (a, b);
  get_pixmap := fun p _ => Ok p;
  tobytes := fun p _ => Ok [p];
  Image_open := fun b => index b 0;
  Image_save := fun i _ => Ok [i];
  close := fun _ => None
|}.

Definition doc3 : bytes := [x01; x02; x03]%byte.

(** Page [02] and page [04] carry annotations; merging turns [02] into
    [12] and fails on [04].  The text of a page is its number, and page
    [03] has none. *)
Definition annotated (p : Byte.byte) : bool :=
  Byte.eqb p x02 || Byte.eqb p x04.

Definition merge (p q : Byte.byte) : result Byte.byte :=
  if Byte.eqb p x04 then Raise (LibraryError "cannot merge") else Ok x12.

#[export] Instance pages_api : PageObject pypdf := {|
  page_contains := fun p _ => annotated p;
  merge_page := merge;
  text := bytes;
  hasattr_extract_text := fun _ => true;
  extract_text := fun p => Ok (if Byte.eqb p x03 then [] else [p]);
  strip_nonempty := fun t => negb (Nat.eqb (List.length t) 0)
|}.

Definition str_of (e : exn) : string :=
  match e with
  | IndexError => "index out of range"
  | AttributeError => "no such attribute"
  | LibraryError msg => msg
  end.

#[export] Instance py : PyStr := {|
  str_exn := str_of;
  str_int := fun n => DecimalString.NilZero.string_of_int (Z.to_int n);
  format_comma := fun n => DecimalString.NilZero.string_of_int (Z.to_int n)
|}.

Definition upload (b : bytes) : UploadedFile :=
  {| name := "a.pdf"; size := Z.of_nat (List.length b); read := b |}.

(** A run on [b] with the given buttons clicked, both boxes unchecked and
    the slider at 150. *)
Definition click (b : bytes) (flatten protect generate convert : bool)
  : widgets :=
  {| file_uploader := Some (upload b);
     button_flatten := flatten;
     checkbox_text_selection := false;
     checkbox_interactive := false;
     button_protect := protect;
     slider_dpi := 150;
     button_generate := generate;
     button_convert := convert |}.

End Toy.

(** ** A second engine, for the edges

    Every document is accepted, the empty one as a document without
    pages.  Page [04] cannot be rendered, and a one-page document cannot
    be closed. *)
Module Edge.

Definition pypdf : PyPdf := {|
  page := Byte.byte;
  reader_pages := fun b => Ok b;
  writer_raises := fun _ _ => None;
  writer_write := fun w => Ok (Toy.held w)
|}.

Definition pages_api : PageObject pypdf := {|
  page_contains := fun (p : @page pypdf) _ => Toy.annotated p;
  merge_page := Toy.merge : @page pypdf -> @page pypdf -> result (@page pypdf);
  text := bytes;
  hasattr_extract_text := fun _ => true;
  extract_text := fun (p : @page pypdf) => Ok [p];
  strip_nonempty := fun t => negb (Nat.eqb (List.length t) 0)
|}.

Definition raster : Raster := {|
  Document := bytes;
  Page := Byte.byte;
  float := Z * Z;
  Matrix := (Z * Z) * (Z * Z);
  Pixmap := Byte.byte;
  Image := Byte.byte;
  fitz_open := fun b _ => Ok b;
  page_count := fun d => List.length d;
  load_page := fun d n => index d n;
  truediv := fun x y => (x, y);
  fitz_Matrix := fun a b => (a, b);
  get_pixmap :=
    fun p _ =>
      if Byte.eqb p x04 then Raise (LibraryError "cannot render") else Ok p;
  tobytes := fun p _ => Ok [p];
  Image_open := fun b => index b 0;
  Image_save := fun i _ => Ok [i];
  close :=
    fun d =>
      if Nat.eqb (List.length d) 1 then Some (LibraryError "cannot close")
      else None
|}.

End Edge.

(** * Properties *)

(** ** The permission mask *)

Section Mask.

Ltac by_cases := intros; repeat match goal with b : bool |- _ => destruct b end.

Lemma permissions_range (a t : bool) : 0 <= permissions a t < 2 ^ 12.
Proof. destruct a, t; vm_compute; intuition discriminate. Qed.

Lemma permissions_within (a t : bool) :
  Z.lor (permissions a t) all_listed = all_listed.
Proof. destruct a, t; reflexivity. Qed.

(** Below position 12, checked position by position. *)
Lemma all_listed_low :
  forallb
    (fun k : nat =>
       implb (Z.testbit all_listed (Z.of_nat k))
         (existsb (Z.eqb (Z.of_nat k)) listed_positions))
    (seq 0 12) = true.
Proof. vm_compute. reflexivity. Qed.

(** The positions set in the largest mask are the listed ones. *)
Lemma all_listed_bits (n : Z) :
  Z.testbit all_listed n = true -> In n listed_positions.
Proof.
intros H.
destruct (Z.neg_nonneg_cases n) as [Hneg | Hpos].
- rewrite Z.testbit_neg_r in H by assumption. discriminate.
- destruct (Z_lt_le_dec n 12) as [Hlt | Hge].
  + pose proof all_listed_low as Hlow.
    rewrite forallb_forall in Hlow.
    specialize (Hlow (Z.to_nat n)).
    rewrite Z2Nat.id, H in Hlow by assumption. cbv [implb] in Hlow.
    assert (Hin : In (Z.to_nat n) (seq 0 12)) by (apply in_seq; lia).
    apply Hlow in Hin. apply existsb_exists in Hin.
    destruct Hin as (k & Hk & Heq). apply Z.eqb_eq in Heq. subst k. exact Hk.
  + rewrite Z.bits_above_log2 in H; [ discriminate | vm_compute; discriminate | ].
    change (Z.log2 all_listed) with 11. lia.
Qed.

(** C1. For each of the four pairs of flags the mask is the value of the
    table: neither flag 2116, interactive only 3908, text selection only
    2164, both 3956; each is the baseline 4|2048|64 joined with 1792 for
    the interactive bits and 48 for the text-selection bits. *)
Theorem permissions_table :
  permissions false false = 2116 /\
  permissions true false = 3908 /\
  permissions false true = 2164 /\
  permissions true true = 3956 /\
  baseline = 2116 /\
  forall a t : bool,
    permissions a t =
    Z.lor (Z.lor baseline (if a then 1792 else 0)) (if t then 48 else 0).
Proof.
  repeat split. by_cases; reflexivity.
Qed.

(** C2. Whatever the two flags are, the mask has print (value 4, position
    2, the source's "bit 3"), print-high-resolution (value 2048, the
    source's "bit 12") and modify-annotations (value 64, the source's
    "bit 7") set; the flags only add to the mask obtained with both flags
    off. *)
Theorem permissions_baseline (allow_interactive allow_text_selection : bool) :
  let m := permissions allow_interactive allow_text_selection in
  Z.testbit m 2 = true /\ Z.testbit m 11 = true /\ Z.testbit m 6 = true /\
  Z.land m 4 = 4 /\ Z.land m 2048 = 2048 /\ Z.land m 64 = 64 /\
  Z.land m baseline = baseline /\
  Z.lor (permissions false false) m = m.
Proof.
  destruct allow_interactive, allow_text_selection; repeat split.
Qed.

(** C3. Whatever the two flags are, the mask sets no bit outside the
    listed values 4, 2048, 64, 16, 32, 256, 512, 1024: joining it with
    3956 gives 3956, every position set is a listed one, and the mask is
    a non-negative integer (below 2^32). *)
Theorem permissions_only_listed (allow_interactive allow_text_selection : bool) :
  let m := permissions allow_interactive allow_text_selection in
  Z.lor m 3956 = 3956 /\
  all_listed = 3956 /\
  (forall n : Z, Z.testbit m n = true -> In n listed_positions) /\
  0 <= m < 2 ^ 32.
Proof.
  intros m. split; [ | split; [ | split ] ].
  - exact (permissions_within _ _).
  - reflexivity.
  - intros n Hn. apply all_listed_bits.
    rewrite <- (permissions_within allow_interactive allow_text_selection).
    rewrite Z.lor_spec. fold m. rewrite Hn. reflexivity.
  - pose proof (permissions_range allow_interactive allow_text_selection).
    fold m in H. assert (2 ^ 12 < 2 ^ 32) by (vm_compute; reflexivity). lia.
Qed.

(** C4. The mask is monotone in the flags: if [a1 <= a2] and [t1 <= t2]
    then every bit set in the mask of [(a1, t1)] is set in that of
    [(a2, t2)]. *)
Theorem permissions_monotone (a1 t1 a2 t2 : bool) :
  Bool.le a1 a2 -> Bool.le t1 t2 ->
  (forall n : Z,
      Z.testbit (permissions a1 t1) n = true ->
      Z.testbit (permissions a2 t2) n = true) /\
  Z.land (permissions a1 t1) (permissions a2 t2) = permissions a1 t1.
Proof.
  intros Ha Ht.
  assert (Hsub : Z.land (permissions a1 t1) (permissions a2 t2)
                 = permissions a1 t1).
  { destruct a1, a2, t1, t2; simpl in Ha, Ht;
      try discriminate; reflexivity. }
  split; [ | exact Hsub ].
  intros n Hn. rewrite <- Hsub in Hn.
  rewrite Z.land_spec in Hn. apply andb_true_iff in Hn. tauto.
Qed.

Lemma permissions_monotone_witness :
  Bool.le false true /\ Bool.le true true /\
  Z.land (permissions false true) (permissions true true)
  = permissions false true.
Proof.
  split; [ exact I | split; [ reflexivity | ] ].
  apply (permissions_monotone false true true true); [ exact I | reflexivity ].
Defined.

End Mask.

(** ** Calls on a writer *)

Section WriterFacts.
Context {pypdf : PyPdf}.

Lemma for_each_app {A S : Type} (xs ys : list A) (body : S -> A -> result S)
    (s : S) :
  for_each (xs ++ ys) body s = (s' <- for_each xs body s ;; for_each ys body s').
Proof.
  revert s. induction xs as [ | x xs IH ]; intros s; simpl.
  - reflexivity.
  - destruct (body s x) as [ s1 | e ]; simpl; [ apply IH | reflexivity ].
Qed.

Lemma for_each_map {A B S : Type} (f : A -> B) (xs : list A)
    (body : S -> B -> result S) (s : S) :
  for_each xs (fun s x => body s (f x)) s = for_each (map f xs) body s.
Proof.
  revert s. induction xs as [ | x xs IH ]; intros s; simpl.
  - reflexivity.
  - destruct (body s (f x)) as [ s1 | e ]; simpl; [ apply IH | reflexivity ].
Qed.

(** A run of calls succeeds exactly when the writer accepts them, and
    then it has recorded them all. *)
Lemma calls_ok (cs : list (writer_call page)) (w w' : PdfWriter) :
  for_each cs call w = Ok w' <-> accepts w cs = true /\ w' = w ++ cs.
Proof.
  revert w. induction cs as [ | c cs IH ]; intros w; simpl.
  - rewrite app_nil_r. split.
    + intros H. injection H as <-. split; reflexivity.
    + intros [_ ->]. reflexivity.
  - unfold call, returning. destruct (writer_raises w c) as [ e | ]; simpl.
    + split; [ discriminate | intros [H _]; discriminate ].
    + rewrite IH, <- app_assoc. reflexivity.
Qed.

(** A run of calls raises exactly what the first refused call raised. *)
Lemma calls_raise (cs : list (writer_call page)) (w : PdfWriter) (e : exn) :
  for_each cs call w = Raise e <->
  exists (k : nat) (c : writer_call page),
    nth_error cs k = Some c /\
    accepts w (firstn k cs) = true /\
    writer_raises (w ++ firstn k cs) c = Some e.
Proof.
  revert w. induction cs as [ | c cs IH ]; intros w; simpl.
  - split; [ discriminate | ].
    intros (k & c & Hk & _). destruct k; discriminate.
  - unfold call, returning.
    destruct (writer_raises w c) as [ e' | ] eqn:Hc; simpl.
    + split.
      * intros H. injection H as <-. exists 0%nat, c. simpl.
        rewrite app_nil_r. repeat split; assumption.
      * intros (k & c' & Hk & Ha & Hr). destruct k as [ | k ]; simpl in *.
        -- injection Hk as <-. rewrite app_nil_r in Hr. congruence.
        -- rewrite Hc in Ha. discriminate.
    + rewrite IH. split.
      * intros (k & c' & Hk & Ha & Hr). exists (S k), c'. simpl.
        rewrite Hc, <- app_assoc in *. repeat split; assumption.
      * intros (k & c' & Hk & Ha & Hr). destruct k as [ | k ]; simpl in *.
        -- injection Hk as <-. rewrite app_nil_r in Hr. congruence.
        -- rewrite Hc in Ha. exists k, c'. rewrite <- app_assoc.
           repeat split; assumption.
Qed.

Lemma writer_pages_app (w1 w2 : PdfWriter) :
  writer_pages (w1 ++ w2) = writer_pages w1 ++ writer_pages w2.
Proof. apply flat_map_app. Qed.

Lemma writer_pages_added (pages : list page) :
  writer_pages (map add_page pages) = pages.
Proof.
  induction pages as [ | p pages IH ]; simpl; [ | rewrite IH ]; reflexivity.
Qed.

Lemma writer_permissions_added (pages : list page) :
  writer_permissions (map add_page pages) = [].
Proof.
  induction pages as [ | p pages IH ]; simpl; [ | rewrite IH ]; reflexivity.
Qed.

Lemma protection_calls_pages (pages : list page) (a t : bool) :
  writer_pages (protection_calls pages a t) = pages.
Proof.
  unfold protection_calls. rewrite writer_pages_app, writer_pages_added.
  simpl. apply app_nil_r.
Qed.

Lemma protection_calls_permissions (pages : list page) (a t : bool) :
  writer_permissions (protection_calls pages a t) = [permissions a t].
Proof.
  unfold protection_calls, writer_permissions.
  rewrite flat_map_app. fold (writer_permissions (map add_page pages)).
  rewrite writer_permissions_added. reflexivity.
Qed.

(** [protected_writer] makes the expected calls on a fresh writer. *)
Lemma protected_writer_calls (pdf_bytes : bytes) (a t : bool) :
  protected_writer pdf_bytes a t =
  (pages <- reader_pages pdf_bytes ;;
   for_each (protection_calls pages a t) call new_writer).
Proof.
  unfold protected_writer, protection_calls.
  destruct (reader_pages pdf_bytes) as [ pages | e ]; simpl; [ | reflexivity ].
  rewrite for_each_app, (for_each_map add_page).
  destruct (for_each (map add_page pages) call new_writer) as [ w | e ];
    simpl; [ | reflexivity ].
  destruct (call w _); reflexivity.
Qed.

Lemma protected_writer_ok (pdf_bytes : bytes) (a t : bool) (w : PdfWriter) :
  protected_writer pdf_bytes a t = Ok w <->
  exists pages : list page,
    reader_pages pdf_bytes = Ok pages /\
    accepts new_writer (protection_calls pages a t) = true /\
    w = protection_calls pages a t.
Proof.
  rewrite protected_writer_calls.
  destruct (reader_pages pdf_bytes) as [ pages | e ]; simpl.
  - rewrite calls_ok. simpl. split.
    + intros [Ha ->]. exists pages. repeat split; assumption.
    + intros (pages' & Hp & Ha & ->). injection Hp as <-.
      split; [ assumption | reflexivity ].
  - split; [ discriminate | intros (pages & Hp & _); discriminate ].
Qed.

Lemma accepts_app (w : PdfWriter) (cs1 cs2 : list (writer_call page)) :
  accepts w (cs1 ++ cs2) = accepts w cs1 && accepts (w ++ cs1) cs2.
Proof.
  revert w. induction cs1 as [ | c cs1 IH ]; intros w; simpl.
  - rewrite app_nil_r. reflexivity.
  - destruct (writer_raises w c); [ reflexivity | ].
    rewrite IH, <- app_assoc. reflexivity.
Qed.

End WriterFacts.

(** ** [restrict_copying_pdf] *)

Section Protect.
Context {pypdf : PyPdf}.

(** C6. Both flags default to false: a call that leaves
    [allow_interactive], [allow_text_selection] or both out is the call
    with [False] in their place, and with both left out the mask is the
    baseline 2116, which holds none of the optional bits. *)
Theorem restrict_copying_pdf_defaults (pdf_bytes : bytes) :
  restrict_copying_pdf pdf_bytes None None
  = restrict_copying_pdf pdf_bytes (Some false) (Some false) /\
  (forall t : bool,
      restrict_copying_pdf pdf_bytes None (Some t)
      = restrict_copying_pdf pdf_bytes (Some false) (Some t)) /\
  (forall a : bool,
      restrict_copying_pdf pdf_bytes (Some a) None
      = restrict_copying_pdf pdf_bytes (Some a) (Some false)) /\
  restrict_copying_pdf pdf_bytes None None
  = (writer <- protected_writer pdf_bytes false false ;; writer_write writer) /\
  permissions (arg false None) (arg false None) = 2116 /\
  Z.land (permissions (arg false None) (arg false None))
    (fold_right Z.lor 0 [16; 32; 256; 512; 1024]) = 0.
Proof. repeat split. Qed.

(** C7. Building the mask has no error outcome: whenever
    [restrict_copying_pdf] raises, the exception was raised by a library
    call - reading the pages, the first call the writer refused, or
    serialising the writer - and conversely. *)
Theorem restrict_copying_pdf_raises (pdf_bytes : bytes)
    (allow_interactive allow_text_selection : option bool) (e : exn) :
  restrict_copying_pdf pdf_bytes allow_interactive allow_text_selection
  = Raise e <->
  reader_pages pdf_bytes = Raise e \/
  exists pages : list page,
    reader_pages pdf_bytes = Ok pages /\
    let cs := protection_calls pages (arg false allow_interactive)
                (arg false allow_text_selection) in
    (exists (k : nat) (c : writer_call page),
        nth_error cs k = Some c /\
        accepts new_writer (firstn k cs) = true /\
        writer_raises (firstn k cs) c = Some e) \/
    (accepts new_writer cs = true /\ writer_write cs = Raise e).
Proof.
  unfold restrict_copying_pdf. rewrite protected_writer_calls.
  destruct (reader_pages pdf_bytes) as [ pages | e' ]; simpl.
  - set (cs := protection_calls pages _ _).
    destruct (for_each cs call new_writer) as [ w | e' ] eqn:Hrun; simpl.
    + apply calls_ok in Hrun. destruct Hrun as [Ha Hw]. simpl in Hw. subst w.
      split.
      * intros Hwrite. right. exists pages. split; [ reflexivity | ].
        right. split; assumption.
      * intros [ H | (pages' & Hp & [ (k & c & Hk & Hpre & Hr) | [_ Hwrite] ]) ].
        -- discriminate.
        -- exfalso. injection Hp as <-.
           assert (Hx : for_each cs call new_writer = Raise e).
           { apply calls_raise. exists k, c. repeat split; assumption. }
           assert (Hy : for_each cs call new_writer = Ok (new_writer ++ cs)).
           { apply calls_ok. split; [ assumption | reflexivity ]. }
           congruence.
        -- injection Hp as <-. exact Hwrite.
    + split.
      * intros H. injection H as <-. right. exists pages.
        split; [ reflexivity | ]. left.
        apply calls_raise in Hrun. exact Hrun.
      * intros [ H | (pages' & Hp & [ Hcall | [Ha _] ]) ].
        -- discriminate.
        -- injection Hp as <-. fold cs in Hcall.
           apply (calls_raise cs new_writer e) in Hcall. congruence.
        -- exfalso. injection Hp as <-.
           assert (Hy : for_each cs call new_writer = Ok (new_writer ++ cs)).
           { apply calls_ok. split; [ assumption | reflexivity ]. }
           congruence.
  - split.
    + intros H. left. injection H as ->. reflexivity.
    + intros [ H | (pages & Hp & _) ];
        [ injection H as ->; reflexivity | discriminate ].
Qed.

(** C8. Once the pages are read and added, the writer's encryption is
    called with the empty user password, the constant owner password
    ["owner_protection_key"], 128-bit keys and the built mask as
    [permissions_flag], and the writer so encrypted is the one
    serialised. *)
Theorem restrict_copying_pdf_encrypt (pdf_bytes : bytes)
    (allow_interactive allow_text_selection : option bool)
    (pages : list page) :
  reader_pages pdf_bytes = Ok pages ->
  accepts new_writer (map add_page pages) = true ->
  restrict_copying_pdf pdf_bytes allow_interactive allow_text_selection
  = (writer <- call (map add_page pages)
                 (encrypt EmptyString "owner_protection_key"%string true
                    (permissions (arg false allow_interactive)
                       (arg false allow_text_selection))) ;;
     writer_write writer) /\
  forall writer : PdfWriter,
    protected_writer pdf_bytes (arg false allow_interactive)
      (arg false allow_text_selection) = Ok writer ->
    writer = map add_page pages ++
             [encrypt EmptyString "owner_protection_key"%string true
                (permissions (arg false allow_interactive)
                   (arg false allow_text_selection))].
Proof.
  intros Hread Hadd. split.
  - unfold restrict_copying_pdf. rewrite protected_writer_calls, Hread.
    simpl. unfold protection_calls. rewrite for_each_app.
    assert (Hrun : for_each (map add_page pages) call new_writer
                   = Ok (map add_page pages)).
    { apply calls_ok. split; [ assumption | reflexivity ]. }
    rewrite Hrun. simpl. destruct (call (map add_page pages) _); reflexivity.
  - intros writer Hw. apply protected_writer_ok in Hw.
    destruct Hw as (pages' & Hp & _ & ->). rewrite Hread in Hp.
    injection Hp as <-. reflexivity.
Qed.

(** C9. For a document the reader parses and whose calls the writer
    accepts, the writer that is serialised has received every page of the
    input, in the input's order, and only then the encryption: it holds
    the pages of the input, as many and in the same order. *)
Theorem restrict_copying_pdf_pages (pdf_bytes : bytes)
    (allow_interactive allow_text_selection : bool) (pages : list page) :
  reader_pages pdf_bytes = Ok pages ->
  accepts new_writer
    (protection_calls pages allow_interactive allow_text_selection) = true ->
  exists writer : PdfWriter,
    protected_writer pdf_bytes allow_interactive allow_text_selection
    = Ok writer /\
    restrict_copying_pdf pdf_bytes (Some allow_interactive)
      (Some allow_text_selection) = writer_write writer /\
    writer = map add_page pages ++
             [encrypt EmptyString "owner_protection_key"%string true
                (permissions allow_interactive allow_text_selection)] /\
    writer_pages writer = pages /\
    List.length (writer_pages writer) = List.length pages.
Proof.
  intros Hread Hacc.
  assert (Hw : protected_writer pdf_bytes allow_interactive
                 allow_text_selection
               = Ok (protection_calls pages allow_interactive
                       allow_text_selection)).
  { apply protected_writer_ok. exists pages. repeat split; assumption. }
  eexists. split; [ exact Hw | ].
  split; [ unfold restrict_copying_pdf; simpl; rewrite Hw; reflexivity | ].
  split; [ reflexivity | ].
  rewrite protection_calls_pages. split; reflexivity.
Qed.

End Protect.

(** C5. The mask does not depend on anything but the two flags: two runs
    with the same flags, on whatever documents and whatever the libraries
    do, encrypt with the same mask, the one [permissions] computes. *)
Theorem permissions_deterministic (lib1 lib2 : PyPdf)
    (pdf_bytes1 pdf_bytes2 : bytes)
    (allow_interactive allow_text_selection : bool)
    (writer1 : @PdfWriter lib1) (writer2 : @PdfWriter lib2) :
  @protected_writer lib1 pdf_bytes1 allow_interactive allow_text_selection
  = Ok writer1 ->
  @protected_writer lib2 pdf_bytes2 allow_interactive allow_text_selection
  = Ok writer2 ->
  writer_permissions writer1 = writer_permissions writer2 /\
  writer_permissions writer1
  = [permissions allow_interactive allow_text_selection].
Proof.
  intros H1 H2.
  apply protected_writer_ok in H1. destruct H1 as (pages1 & _ & _ & ->).
  apply protected_writer_ok in H2. destruct H2 as (pages2 & _ & _ & ->).
  rewrite !protection_calls_permissions. split; reflexivity.
Qed.

(** ** [convert_to_image_pdf] *)

Section Rasterize.
Context {pypdf : PyPdf} {raster : Raster}.
Variables (pdf_document : Document) (dpi : Z).

(** The loop with [get_images] on: one image per page number, appended
    in turn; the writer is left alone. *)
Lemma images_loop (ns : list nat) (images : list Image)
    (w : option PdfWriter) (st : list Image * option PdfWriter) :
  for_each ns (convert_page pdf_document dpi true) (images, w) = Ok st <->
  exists new : list Image,
    Forall2 (fun n img => render_page pdf_document dpi n = Ok img) ns new /\
    st = (images ++ new, w).
Proof.
  revert images. induction ns as [ | n ns IH ]; intros images; simpl.
  - split.
    + intros H. injection H as <-. exists []. rewrite app_nil_r.
      split; [ constructor | reflexivity ].
    + intros (new & HF & ->). inversion HF. rewrite app_nil_r. reflexivity.
  - destruct (render_page pdf_document dpi n) as [ img | e ] eqn:Hn; simpl.
    + rewrite IH. split.
      * intros (new & HF & ->). exists (img :: new).
        rewrite <- app_assoc. split; [ constructor; assumption | reflexivity ].
      * intros (new & HF & ->). inversion HF as [ | n' img' ns' new' H1 H2 ].
        subst. rewrite Hn in H1. injection H1 as <-. exists new'.
        rewrite <- app_assoc. split; [ assumption | reflexivity ].
    + split; [ discriminate | ].
      intros (new & HF & _). inversion HF. congruence.
Qed.

(** One iteration with [get_images] off, on a writer. *)
Lemma convert_page_add (images : list Image) (w : PdfWriter) (n : nat) :
  convert_page pdf_document dpi false (images, Some w) n =
  (p <- page_image pdf_document dpi n ;;
   w' <- call w (add_page p) ;;
   Ok (images, Some w')).
Proof.
unfold convert_page, page_image, image_page.
destruct (render_page pdf_document dpi n) as [ img | e ]; simpl;
  [ | reflexivity ].
destruct (Image_save img "PDF") as [ img_buffer | e ]; simpl;
  [ | reflexivity ].
destruct (reader_pages img_buffer) as [ img_reader | e ]; reflexivity.
Qed.

(** The loop with [get_images] off: one image page per page number, added
    to the writer in turn; no image is kept. *)
Lemma pages_loop (ns : list nat) (images : list Image) (w : PdfWriter)
    (st : list Image * option PdfWriter) :
  for_each ns (convert_page pdf_document dpi false) (images, Some w) = Ok st <->
  exists ps : list page,
    Forall2 (fun n p => page_image pdf_document dpi n = Ok p) ns ps /\
    accepts w (map add_page ps) = true /\
    st = (images, Some (w ++ map add_page ps)).
Proof.
revert w. induction ns as [ | n ns IH ]; intros w.
- simpl. split.
  + intros H. injection H as <-. exists []. simpl. rewrite app_nil_r.
    repeat split. constructor.
  + intros (ps & HF & _ & ->). inversion HF. simpl. rewrite app_nil_r.
    reflexivity.
- cbn [for_each]. rewrite convert_page_add.
  destruct (page_image pdf_document dpi n) as [ p | e ] eqn:Hp; simpl.
  + unfold call, returning.
    destruct (writer_raises w (add_page p)) as [ e | ] eqn:Hc; simpl.
    * split; [ discriminate | ].
      intros (ps & HF & Ha & _).
      inversion HF as [ | n' p' ns' ps' H1 H2 ]. subst.
      rewrite Hp in H1. injection H1 as <-. simpl in Ha.
      rewrite Hc in Ha. discriminate.
    * rewrite IH. split.
      -- intros (ps & HF & Ha & ->). exists (p :: ps). simpl.
         rewrite Hc, <- app_assoc. repeat split; try assumption.
         constructor; assumption.
      -- intros (ps & HF & Ha & ->).
         inversion HF as [ | n' p' ns' ps' H1 H2 ]. subst.
         rewrite Hp in H1. injection H1 as <-. simpl in Ha.
         rewrite Hc in Ha. exists ps'. simpl. rewrite <- app_assoc.
         repeat split; assumption.
  + split; [ discriminate | ].
    intros (ps & HF & _). inversion HF as [ | n' p' ns' ps' H1 H2 ].
    subst. congruence.
Qed.

End Rasterize.

Section ConvertResult.
Context {pypdf : PyPdf} {raster : Raster}.

Lemma range_length (n : nat) : List.length (range n) = n.
Proof. apply length_seq. Qed.

(** C10. On a document PyMuPDF opens and closes without raising: with
    [get_images=True] the function returns exactly the list of the
    rendered pages, one image per page number [0 .. page_count - 1] in
    that order, so as many images as the document has pages; with
    [get_images=False] (also the default) it returns the bytes of a
    writer that was given one image page per page number, in that
    order. *)
Theorem convert_to_image_pdf_result (pdf_bytes : bytes) (dpi : option Z)
    (pdf_document : Document) :
  fitz_open pdf_bytes "pdf"%string = Ok pdf_document ->
  close pdf_document = None ->
  (forall r : converted,
      convert_to_image_pdf pdf_bytes dpi (Some true) = Ok r <->
      exists images : list Image,
        Forall2
          (fun n img => render_page pdf_document (arg 150 dpi) n = Ok img)
          (range (page_count pdf_document)) images /\
        List.length images = page_count pdf_document /\
        r = image_list images) /\
  (forall r : converted,
      convert_to_image_pdf pdf_bytes dpi (Some false) = Ok r <->
      exists (ps : list page) (b : bytes),
        Forall2
          (fun n p => page_image pdf_document (arg 150 dpi) n = Ok p)
          (range (page_count pdf_document)) ps /\
        List.length ps = page_count pdf_document /\
        accepts new_writer (map add_page ps) = true /\
        writer_write (map add_page ps) = Ok b /\
        r = pdf_bytes_of b) /\
  convert_to_image_pdf pdf_bytes dpi None
  = convert_to_image_pdf pdf_bytes dpi (Some false).
Proof.
  intros Hopen Hclose. split; [ | split; [ | reflexivity ] ]; intros r.
  - unfold convert_to_image_pdf, rasterize. rewrite Hopen. simpl.
    destruct (for_each _ _ _) as [ [images w] | e ] eqn:Hloop; simpl.
    + rewrite Hclose. simpl.
      apply images_loop in Hloop. destruct Hloop as (new & HF & Heq).
      simpl in Heq. injection Heq as -> ->. split.
      * intros H. injection H as <-. exists new.
        split; [ assumption | split; [ | reflexivity ] ].
        rewrite <- (Forall2_length HF). apply range_length.
      * intros (images & HF' & _ & ->).
        assert (H1 : for_each (range (page_count pdf_document))
                       (convert_page pdf_document (arg 150 dpi) true)
                       ([], None) = Ok ([] ++ new, None))
          by (apply images_loop; exists new; split; [ assumption | reflexivity ]).
        assert (H2 : for_each (range (page_count pdf_document))
                       (convert_page pdf_document (arg 150 dpi) true)
                       ([], None) = Ok ([] ++ images, None))
          by (apply images_loop; exists images; split; [ assumption | reflexivity ]).
        rewrite H1 in H2. simpl in H2. injection H2 as ->. reflexivity.
    + split; [ discriminate | ].
      intros (images & HF' & _).
      assert (H2 : for_each (range (page_count pdf_document))
                     (convert_page pdf_document (arg 150 dpi) true)
                     ([], None) = Ok ([] ++ images, None))
        by (apply images_loop; exists images; split; [ assumption | reflexivity ]).
      congruence.
  - unfold convert_to_image_pdf, rasterize. rewrite Hopen. simpl.
    destruct (for_each _ _ _) as [ [images w] | e ] eqn:Hloop; simpl.
    + rewrite Hclose. simpl.
      apply pages_loop in Hloop. destruct Hloop as (ps & HF & Ha & Heq).
      simpl in Heq. injection Heq as -> ->. split.
      * intros H. destruct (writer_write (map add_page ps)) as [ b | e ] eqn:Hb;
          simpl in H; [ | discriminate ].
        injection H as <-. exists ps, b.
        split; [ assumption | ]. split; [ | repeat split; assumption ].
        rewrite <- (Forall2_length HF). apply range_length.
      * intros (ps' & b & HF' & _ & Ha' & Hb & ->).
        assert (H1 : for_each (range (page_count pdf_document))
                       (convert_page pdf_document (arg 150 dpi) false)
                       ([], Some new_writer)
                     = Ok ([], Some (new_writer ++ map add_page ps)))
          by (apply pages_loop; exists ps; repeat split; assumption).
        assert (H2 : for_each (range (page_count pdf_document))
                       (convert_page pdf_document (arg 150 dpi) false)
                       ([], Some new_writer)
                     = Ok ([], Some (new_writer ++ map add_page ps')))
          by (apply pages_loop; exists ps'; repeat split; assumption).
        rewrite H1 in H2. simpl in H2. injection H2 as H2.
        rewrite H2, Hb. reflexivity.
    + split; [ discriminate | ].
      intros (ps' & b & HF' & _ & Ha' & _).
      assert (H2 : for_each (range (page_count pdf_document))
                     (convert_page pdf_document (arg 150 dpi) false)
                     ([], Some new_writer)
                   = Ok ([], Some (new_writer ++ map add_page ps')))
        by (apply pages_loop; exists ps'; repeat split; assumption).
      congruence.
Qed.

End ConvertResult.

(** ** The statements on the small engine *)

Lemma restrict_copying_pdf_raises_witness :
  @reader_pages Toy.pypdf [] = Raise Toy.not_a_pdf /\
  @restrict_copying_pdf Toy.pypdf [] None (Some true) = Raise Toy.not_a_pdf.
Proof.
split; [ reflexivity | ].
apply (@restrict_copying_pdf_raises Toy.pypdf [] None (Some true)
         Toy.not_a_pdf).
left. reflexivity.
Defined.

Lemma restrict_copying_pdf_encrypt_witness :
  @reader_pages Toy.pypdf Toy.doc3 = Ok Toy.doc3 /\
  @accepts Toy.pypdf (@new_writer Toy.pypdf) (map add_page Toy.doc3) = true /\
  @restrict_copying_pdf Toy.pypdf Toy.doc3 (Some true) None
  = (writer <- @call Toy.pypdf (map add_page Toy.doc3)
                 (encrypt EmptyString "owner_protection_key"%string true 3908) ;;
     @writer_write Toy.pypdf writer).
Proof.
split; [ reflexivity | split; [ reflexivity | ] ].
apply (@restrict_copying_pdf_encrypt Toy.pypdf Toy.doc3 (Some true) None
         Toy.doc3); reflexivity.
Defined.

Lemma restrict_copying_pdf_pages_witness :
  @reader_pages Toy.pypdf Toy.doc3 = Ok Toy.doc3 /\
  @accepts Toy.pypdf (@new_writer Toy.pypdf) (@protection_calls Toy.pypdf Toy.doc3 false true) = true /\
  exists writer : @PdfWriter Toy.pypdf,
    @protected_writer Toy.pypdf Toy.doc3 false true = Ok writer /\
    @writer_pages Toy.pypdf writer = Toy.doc3.
Proof.
split; [ reflexivity | split; [ reflexivity | ] ].
destruct (@restrict_copying_pdf_pages Toy.pypdf Toy.doc3 false true Toy.doc3
            eq_refl eq_refl) as (writer & Hw & _ & _ & Hpages & _).
exists writer. split; assumption.
Defined.

Lemma permissions_deterministic_witness :
  @protected_writer Toy.pypdf Toy.doc3 true false
  = Ok (@protection_calls Toy.pypdf Toy.doc3 true false) /\
  @protected_writer Toy.pypdf [x07%byte] true false
  = Ok (@protection_calls Toy.pypdf [x07%byte] true false) /\
  @writer_permissions Toy.pypdf (@protection_calls Toy.pypdf Toy.doc3 true false)
  = @writer_permissions Toy.pypdf (@protection_calls Toy.pypdf [x07%byte] true false).
Proof.
split; [ reflexivity | split; [ reflexivity | ] ].
apply (permissions_deterministic Toy.pypdf Toy.pypdf Toy.doc3 [x07%byte]
         true false); reflexivity.
Defined.

Lemma convert_to_image_pdf_result_witness :
  @fitz_open Toy.raster Toy.doc3 "pdf"%string = Ok Toy.doc3 /\
  @close Toy.raster Toy.doc3 = None /\
  exists images : list (@Image Toy.raster),
    List.length images = 3%nat /\
    @image_list Toy.raster Toy.doc3 = @image_list Toy.raster images.
Proof.
split; [ reflexivity | split; [ reflexivity | ] ].
destruct (@convert_to_image_pdf_result Toy.pypdf Toy.raster Toy.doc3 None
            Toy.doc3 eq_refl eq_refl) as [Himages _].
destruct (proj1 (Himages (@image_list Toy.raster Toy.doc3)) eq_refl)
  as (images & _ & Hlen & Heq).
exists images. split; assumption.
Defined.


(** * Further properties *)

(** ** [flatten_pdf] *)

Section FlattenFacts.
Context {pypdf : PyPdf} {pages_api : PageObject pypdf}.

(** A loop that adds to the writer the page made from each item. *)
Lemma add_loop {A : Type} (f : A -> result page) (xs : list A)
    (w w' : PdfWriter) :
  for_each xs (fun w x => p <- f x ;; call w (add_page p)) w = Ok w' <->
  exists ps : list page,
    Forall2 (fun x p => f x = Ok p) xs ps /\
    accepts w (map add_page ps) = true /\
    w' = w ++ map add_page ps.
Proof.
revert w. induction xs as [ | x xs IH ]; intros w; simpl.
- split.
  + intros H. injection H as <-. exists []. simpl. rewrite app_nil_r.
    repeat split. constructor.
  + intros (ps & HF & _ & ->). inversion HF. simpl. rewrite app_nil_r.
    reflexivity.
- destruct (f x) as [ p | e ] eqn:Hx; simpl.
  + unfold call, returning.
    destruct (writer_raises w (add_page p)) as [ e | ] eqn:Hc; simpl.
    * split; [ discriminate | ].
      intros (ps & HF & Ha & _). inversion HF as [ | x' p' xs' ps' H1 H2 ].
      subst. rewrite Hx in H1. injection H1 as <-. simpl in Ha.
      rewrite Hc in Ha. discriminate.
    * rewrite IH. split.
      -- intros (ps & HF & Ha & ->). exists (p :: ps). simpl.
         rewrite Hc, <- app_assoc. repeat split; try assumption.
         constructor; assumption.
      -- intros (ps & HF & Ha & ->).
         inversion HF as [ | x' p' xs' ps' H1 H2 ]. subst.
         rewrite Hx in H1. injection H1 as <-. simpl in Ha.
         rewrite Hc in Ha. exists ps'. simpl. rewrite <- app_assoc.
         repeat split; assumption.
  + split; [ discriminate | ].
    intros (ps & HF & _). inversion HF as [ | x' p' xs' ps' H1 H2 ].
    subst. congruence.
Qed.

Lemma flattened_writer_ok (pdf_bytes : bytes) (w : PdfWriter) :
  flattened_writer pdf_bytes = Ok w <->
  exists pages ps : list page,
    reader_pages pdf_bytes = Ok pages /\
    Forall2 (fun p q => flattened p = Ok q) pages ps /\
    accepts new_writer (map add_page ps) = true /\
    w = map add_page ps.
Proof.
unfold flattened_writer.
destruct (reader_pages pdf_bytes) as [ pages | e ]; simpl.
- rewrite (add_loop flattened). split.
  + intros (ps & HF & Ha & ->). exists pages, ps. repeat split; assumption.
  + intros (pages' & ps & Hp & HF & Ha & ->). injection Hp as <-.
    exists ps. repeat split; assumption.
- split; [ discriminate | intros (pages & ps & Hp & _); discriminate ].
Qed.

(** Pages without [/Annots] pass through untouched. *)
Lemma flattened_plain (pages : list page) :
  (forall p, In p pages -> page_contains p "/Annots"%string = false) ->
  Forall2 (fun p q => flattened p = Ok q) pages pages.
Proof.
induction pages as [ | p pages IH ]; intros H; constructor.
- unfold flattened. rewrite (H p (or_introl eq_refl)). reflexivity.
- apply IH. intros q Hq. apply H. right. exact Hq.
Qed.

(** X1. [flatten_pdf] returns exactly the serialisation of a writer that
    received one [add_page] per page of the input, in the input's order,
    and nothing else: each page is the input page itself when it has no
    [/Annots] and the page merged with itself when it has. *)
Theorem flatten_pdf_pages (pdf_bytes out : bytes) :
  flatten_pdf pdf_bytes = Ok out <->
  exists pages ps : list page,
    reader_pages pdf_bytes = Ok pages /\
    Forall2 (fun p q => flattened p = Ok q) pages ps /\
    List.length ps = List.length pages /\
    accepts new_writer (map add_page ps) = true /\
    writer_pages (map add_page ps) = ps /\
    writer_permissions (map add_page ps) = [] /\
    writer_write (map add_page ps) = Ok out.
Proof.
unfold flatten_pdf. split.
- destruct (flattened_writer pdf_bytes) as [ w | e ] eqn:Hw; simpl;
    [ | discriminate ].
  intros Hout. apply flattened_writer_ok in Hw.
  destruct Hw as (pages & ps & Hp & HF & Ha & ->).
  exists pages, ps. repeat split; try assumption.
  + symmetry. exact (Forall2_length HF).
  + apply writer_pages_added.
  + apply writer_permissions_added.
- intros (pages & ps & Hp & HF & _ & Ha & _ & _ & Hout).
  assert (Hw : flattened_writer pdf_bytes = Ok (map add_page ps)).
  { apply flattened_writer_ok. exists pages, ps. repeat split; assumption. }
  rewrite Hw. exact Hout.
Qed.

(** X2. On a document none of whose pages has [/Annots], [flatten_pdf]
    merges nothing: its writer holds the pages as read, and the writer of
    [restrict_copying_pdf] on the same document is that writer followed by
    the one [encrypt] call. *)
Theorem flatten_pdf_plain (pdf_bytes : bytes) (pages : list page)
    (allow_interactive allow_text_selection : bool) (writer : PdfWriter) :
  reader_pages pdf_bytes = Ok pages ->
  (forall p, In p pages -> page_contains p "/Annots"%string = false) ->
  protected_writer pdf_bytes allow_interactive allow_text_selection
  = Ok writer ->
  flattened_writer pdf_bytes = Ok (map add_page pages) /\
  flatten_pdf pdf_bytes = writer_write (map add_page pages) /\
  writer = map add_page pages ++
           [encrypt EmptyString "owner_protection_key"%string true
              (permissions allow_interactive allow_text_selection)].
Proof.
intros Hread Hplain Hw.
apply protected_writer_ok in Hw. destruct Hw as (pages' & Hp & Ha & ->).
rewrite Hread in Hp. injection Hp as <-.
unfold protection_calls in Ha. rewrite accepts_app in Ha.
apply andb_true_iff in Ha. destruct Ha as [Ha _].
assert (Hf : flattened_writer pdf_bytes = Ok (map add_page pages)).
{ apply flattened_writer_ok. exists pages, pages.
  repeat split; try assumption. apply flattened_plain. exact Hplain. }
split; [ exact Hf | ]. split; [ | reflexivity ].
unfold flatten_pdf. rewrite Hf. reflexivity.
Qed.

(** X3. [flatten_pdf] is all or nothing: if merging the annotations of any
    one page raises, the function raises and returns no bytes, whatever
    the other pages are. *)
Theorem flatten_pdf_merge_raises (pdf_bytes : bytes) (pages : list page)
    (p : page) (e : exn) :
  reader_pages pdf_bytes = Ok pages ->
  In p pages ->
  page_contains p "/Annots"%string = true ->
  merge_page p p = Raise e ->
  exists e' : exn, flatten_pdf pdf_bytes = Raise e'.
Proof.
intros Hread Hin Hannots Hmerge.
unfold flatten_pdf.
destruct (flattened_writer pdf_bytes) as [ w | e' ] eqn:Hw;
  [ exfalso | exists e'; reflexivity ].
apply flattened_writer_ok in Hw.
destruct Hw as (pages' & ps & Hp & HF & _).
rewrite Hread in Hp. injection Hp as <-.
clear Hread. induction HF as [ | q r pages ps Hq _ IH ].
- destruct Hin.
- destruct Hin as [ -> | Hin ]; [ | exact (IH Hin) ].
  unfold flattened in Hq. rewrite Hannots, Hmerge in Hq. discriminate.
Qed.

End FlattenFacts.

(** ** More on [convert_to_image_pdf] *)

Section ConvertFacts.
Context {pypdf : PyPdf} {raster : Raster}.

(** The loop with [get_images] on collects the rendered pages. *)
Lemma images_collect (pdf_document : Document) (dpi : Z) (ns : list nat)
    (images : list Image) (w : option PdfWriter) :
  for_each ns (convert_page pdf_document dpi true) (images, w) =
  (new <- collect (render_page pdf_document dpi) ns ;;
   Ok (images ++ new, w)).
Proof.
revert images. induction ns as [ | n ns IH ]; intros images; simpl.
- rewrite app_nil_r. reflexivity.
- destruct (render_page pdf_document dpi n) as [ img | e ]; simpl;
    [ | reflexivity ].
  rewrite IH.
  destruct (collect (render_page pdf_document dpi) ns) as [ new | e ]; simpl;
    [ | reflexivity ].
  rewrite <- app_assoc. reflexivity.
Qed.

(** With [get_images=True] the function is: open, render every page,
    close, return the images. *)
Lemma convert_images (pdf_bytes : bytes) (dpi : option Z) :
  convert_to_image_pdf pdf_bytes dpi (Some true) =
  (pdf_document <- fitz_open pdf_bytes "pdf"%string ;;
   images <- collect (render_page pdf_document (arg 150 dpi))
               (range (page_count pdf_document)) ;;
   _ <- returning (close pdf_document) tt ;;
   Ok (image_list images)).
Proof.
unfold convert_to_image_pdf, rasterize. simpl.
destruct (fitz_open pdf_bytes "pdf") as [ doc | e ]; simpl; [ | reflexivity ].
rewrite images_collect.
destruct (collect _ _) as [ images | e ]; simpl; [ | reflexivity ].
destruct (close doc); reflexivity.
Qed.

(** [collect] raises what the first failing item raises. *)
Lemma collect_raise {A B : Type} (f : A -> result B) (xs : list A)
    (k : nat) (x : A) (e : exn) :
  nth_error xs k = Some x ->
  f x = Raise e ->
  (forall j y, (j < k)%nat -> nth_error xs j = Some y ->
               exists b, f y = Ok b) ->
  collect f xs = Raise e.
Proof.
revert k. induction xs as [ | a xs IH ]; intros k Hk Hx Hbefore.
- destruct k; discriminate.
- destruct k as [ | k ]; simpl in *.
  + injection Hk as ->. rewrite Hx. reflexivity.
  + destruct (Hbefore 0%nat a (Nat.lt_0_succ k) eq_refl) as [b Hb].
    rewrite Hb. simpl.
    rewrite (IH k Hk Hx); [ reflexivity | ].
    intros j y Hj Hy. apply (Hbefore (S j) y); [ lia | exact Hy ].
Qed.

Lemma range_nth (n k : nat) : (k < n)%nat -> nth_error (range n) k = Some k.
Proof.
intros H. unfold range.
rewrite (nth_error_nth' (seq 0 n) 0%nat) by (rewrite length_seq; exact H).
rewrite seq_nth by exact H. reflexivity.
Qed.

(** X5. If closing the document raises, [convert_to_image_pdf] raises
    too, in either mode: no images and no bytes are returned even when
    every page was converted. *)
Theorem convert_to_image_pdf_close_raises (pdf_bytes : bytes)
    (dpi : option Z) (get_images : option bool) (pdf_document : Document)
    (e : exn) :
  fitz_open pdf_bytes "pdf"%string = Ok pdf_document ->
  close pdf_document = Some e ->
  (exists e' : exn,
      convert_to_image_pdf pdf_bytes dpi get_images = Raise e') /\
  (forall st,
      for_each (range (page_count pdf_document))
        (convert_page pdf_document (arg 150 dpi) (arg false get_images))
        ([], if negb (arg false get_images) then Some new_writer else None)
      = Ok st ->
      convert_to_image_pdf pdf_bytes dpi get_images = Raise e).
Proof.
intros Hopen Hclose.
unfold convert_to_image_pdf, rasterize. rewrite Hopen. simpl.
destruct (for_each _ _ _) as [ st | e' ]; simpl.
- rewrite Hclose. simpl. split; [ exists e; reflexivity | ].
  intros _ _. reflexivity.
- split; [ exists e'; reflexivity | ]. intros st H. discriminate.
Qed.

(** X6. With [get_images=True], the exception of the first page that
    fails to render is the one the caller gets; the images of the pages
    before it are not returned. *)
Theorem convert_to_image_pdf_first_failure (pdf_bytes : bytes)
    (dpi : option Z) (pdf_document : Document) (k : nat) (e : exn) :
  fitz_open pdf_bytes "pdf"%string = Ok pdf_document ->
  (k < page_count pdf_document)%nat ->
  render_page pdf_document (arg 150 dpi) k = Raise e ->
  (forall j, (j < k)%nat ->
             exists img, render_page pdf_document (arg 150 dpi) j = Ok img) ->
  convert_to_image_pdf pdf_bytes dpi (Some true) = Raise e.
Proof.
intros Hopen Hk Hfail Hbefore.
rewrite convert_images, Hopen. simpl.
rewrite (collect_raise _ _ k k e); [ reflexivity | | exact Hfail | ].
- apply range_nth. exact Hk.
- intros j y Hj Hy. rewrite range_nth in Hy by lia. injection Hy as <-.
  apply Hbefore. exact Hj.
Qed.

(** X7. A document without pages: with [get_images=True] the result is
    the empty list; otherwise it is the serialisation of a writer that
    was given no page. *)
Theorem convert_to_image_pdf_no_pages (pdf_bytes : bytes) (dpi : option Z)
    (pdf_document : Document) :
  fitz_open pdf_bytes "pdf"%string = Ok pdf_document ->
  page_count pdf_document = 0%nat ->
  close pdf_document = None ->
  convert_to_image_pdf pdf_bytes dpi (Some true) = Ok (image_list []) /\
  convert_to_image_pdf pdf_bytes dpi None
  = (b <- writer_write new_writer ;; Ok (pdf_bytes_of b)).
Proof.
intros Hopen Hcount Hclose.
unfold convert_to_image_pdf, rasterize. rewrite Hopen. simpl.
rewrite Hcount. simpl. rewrite Hclose. simpl. split; reflexivity.
Qed.

End ConvertFacts.

(** X4. With [get_images=True] pypdf plays no part: whatever pypdf does,
    the function returns the same images or raises the same exception. *)
Theorem convert_to_image_pdf_images_without_pypdf (lib1 lib2 : PyPdf)
    (raster : Raster) (pdf_bytes : bytes) (dpi : option Z) :
  @convert_to_image_pdf lib1 raster pdf_bytes dpi (Some true)
  = @convert_to_image_pdf lib2 raster pdf_bytes dpi (Some true).
Proof.
rewrite (@convert_images lib1 raster), (@convert_images lib2 raster).
reflexivity.
Qed.

(** ** [main] *)

Section AppFacts.
Context {pypdf : PyPdf} {pages_api : PageObject pypdf} {raster : Raster}
        {py : PyStr}.

(** The keys of the session after a run on a readable upload. *)
Lemma main_session_keys (w : widgets) (s : session_state) (f : UploadedFile)
    (reader : list page) :
  file_uploader w = Some f ->
  reader_pages (read f) = Ok reader ->
  let s' := fst (main w s) in
  let flattened := ran (button_flatten w) (flatten_pdf (read f)) in
  let protected :=
    ran (button_protect w)
      (restrict_copying_pdf (read f) (Some (checkbox_interactive w))
         (Some (checkbox_text_selection w))) in
  let images :=
    ran (button_generate w)
      (convert_to_image_pdf (read f) (Some (slider_dpi w)) (Some true)) in
  let image_bytes :=
    ran (button_convert w)
      (convert_to_image_pdf (read f) (Some (slider_dpi w)) None) in
  flattened_pdf s' = updated flattened (flattened_pdf s) /\
  protected_pdf s' = updated protected (protected_pdf s) /\
  protection_settings s'
  = updated
      (option_map
         (fun _ => {| text_selection := checkbox_text_selection w;
                      interactive := checkbox_interactive w |})
         protected)
      (protection_settings s) /\
  page_images s' = updated images (page_images s) /\
  image_pdf s' = updated image_bytes (image_pdf s) /\
  image_dpi s'
  = match images, image_bytes with
    | None, None => image_dpi s
    | _, _ => Some (slider_dpi w)
    end.
Proof.
intros Hfile Hread. unfold main. rewrite Hfile, Hread.
unfold flatten_clicked, protect_clicked, generate_clicked, convert_clicked,
  ran, updated.
destruct (button_flatten w), (button_protect w), (button_generate w),
  (button_convert w);
  try destruct (flatten_pdf (read f));
  try destruct (restrict_copying_pdf (read f) _ _);
  try destruct (convert_to_image_pdf (read f) _ (Some true));
  try destruct (convert_to_image_pdf (read f) _ None);
  simpl; repeat split.
Qed.

(** X8. What one run on a readable upload does to the session: each
    button writes only its own keys, and only when its operation returns.
    ["flattened_pdf"] becomes the result of [flatten_pdf];
    ["protected_pdf"] and ["protection_settings"] the result of
    [restrict_copying_pdf] and the two check boxes; ["page_images"] and
    ["image_pdf"] the results of [convert_to_image_pdf] with and without
    [get_images]; ["image_dpi"] the slider value when either conversion
    returned.  A key whose operation was not run, or raised, keeps its
    value. *)
Theorem main_session (w : widgets) (s : session_state) (f : UploadedFile)
    (reader : list page) :
  file_uploader w = Some f ->
  reader_pages (read f) = Ok reader ->
  let s' := fst (main w s) in
  let flattened := ran (button_flatten w) (flatten_pdf (read f)) in
  let protected :=
    ran (button_protect w)
      (restrict_copying_pdf (read f) (Some (checkbox_interactive w))
         (Some (checkbox_text_selection w))) in
  let images :=
    ran (button_generate w)
      (convert_to_image_pdf (read f) (Some (slider_dpi w)) (Some true)) in
  let image_bytes :=
    ran (button_convert w)
      (convert_to_image_pdf (read f) (Some (slider_dpi w)) None) in
  flattened_pdf s' = updated flattened (flattened_pdf s) /\
  protected_pdf s' = updated protected (protected_pdf s) /\
  protection_settings s'
  = updated
      (option_map
         (fun _ => {| text_selection := checkbox_text_selection w;
                      interactive := checkbox_interactive w |})
         protected)
      (protection_settings s) /\
  page_images s' = updated images (page_images s) /\
  image_pdf s' = updated image_bytes (image_pdf s) /\
  image_dpi s'
  = match images, image_bytes with
    | None, None => image_dpi s
    | _, _ => Some (slider_dpi w)
    end.
Proof. exact (main_session_keys w s f reader). Qed.

(** What is shown on a readable upload: the header, the messages of the
    buttons, the downloads for the session the run leaves, the preview. *)
Lemma main_shown (w : widgets) (s : session_state) (f : UploadedFile)
    (reader : list page) :
  file_uploader w = Some f ->
  reader_pages (read f) = Ok reader ->
  exists messages : list ui_event,
    Forall (fun ev => is_message ev = true) messages /\
    snd (main w s) =
    [st_caption "flattening your PDFs";
     st_success ("✅ Uploaded: " ++ name f)%string;
     st_caption ("Size: " ++ format_comma (size f) ++ " bytes")%string;
     st_info ("📊 PDF Info: " ++ str_int (Z.of_nat (List.length reader))
              ++ " page(s)")%string]
    ++ messages
    ++ downloads f (read f) (fst (main w s))
    ++ preview reader.
Proof.
intros Hfile Hread. unfold main. rewrite Hfile, Hread. cbv zeta.
destruct (if button_flatten w then flatten_clicked (read f) s else (s, []))
  as [s1 ev1] eqn:E1.
destruct (if button_protect w
          then protect_clicked (read f) (checkbox_text_selection w)
                 (checkbox_interactive w) s1
          else (s1, [])) as [s2 ev2] eqn:E2.
destruct (if button_generate w
          then generate_clicked (read f) (slider_dpi w) s2
          else (s2, [])) as [s3 ev3] eqn:E3.
destruct (if button_convert w
          then convert_clicked (read f) (slider_dpi w) s3
          else (s3, [])) as [s4 ev4] eqn:E4.
cbn [fst snd]. exists (ev1 ++ ev2 ++ ev3 ++ ev4). split.
- apply Forall_app; split;
    [ | apply Forall_app; split; [ | apply Forall_app; split ] ].
  + destruct (button_flatten w); [ | injection E1 as _ <-; constructor ].
    unfold flatten_clicked in E1.
    destruct (flatten_pdf (read f)); injection E1 as _ <-;
      repeat constructor.
  + destruct (button_protect w); [ | injection E2 as _ <-; constructor ].
    unfold protect_clicked in E2.
    destruct (restrict_copying_pdf (read f) _ _); injection E2 as _ <-;
      repeat constructor.
  + destruct (button_generate w); [ | injection E3 as _ <-; constructor ].
    unfold generate_clicked in E3.
    destruct (convert_to_image_pdf (read f) _ _); injection E3 as _ <-;
      repeat constructor.
  + destruct (button_convert w); [ | injection E4 as _ <-; constructor ].
    unfold convert_clicked in E4.
    destruct (convert_to_image_pdf (read f) _ _); injection E4 as _ <-;
      repeat constructor.
- rewrite <- !app_assoc. reflexivity.
Qed.

(** On anything but a readable upload the session is left as it is. *)
Lemma main_idle (w : widgets) (s : session_state) :
  (forall f reader, file_uploader w = Some f ->
                    reader_pages (read f) <> Ok reader) ->
  fst (main w s) = s.
Proof.
intros H. unfold main. destruct (file_uploader w) as [ f | ]; [ | reflexivity ].
destruct (reader_pages (read f)) as [ reader | e ] eqn:Hr; [ | reflexivity ].
exfalso. exact (H f reader eq_refl Hr).
Qed.

(** What [get_images] decides is the kind of value returned. *)
Lemma convert_kind (pdf_bytes : bytes) (dpi : option Z) (r : converted) :
  (convert_to_image_pdf pdf_bytes dpi (Some true) = Ok r ->
   exists images, r = image_list images) /\
  (convert_to_image_pdf pdf_bytes dpi None = Ok r ->
   exists b, r = pdf_bytes_of b).
Proof.
unfold convert_to_image_pdf. simpl. split.
- destruct (rasterize pdf_bytes (arg 150 dpi) true) as [ [images w] | e ];
    simpl; [ | discriminate ].
  intros H. injection H as <-. exists images. reflexivity.
- destruct (rasterize pdf_bytes (arg 150 dpi) false) as [ [images w] | e ];
    simpl; [ | discriminate ].
  destruct w as [ w | ]; [ | discriminate ].
  destruct (writer_write w) as [ b | e ]; simpl; [ | discriminate ].
  intros H. injection H as <-. exists b. reflexivity.
Qed.

(** X9. An upload pypdf cannot read: none of the four operations runs,
    whatever buttons were clicked; the session is left as it is, no
    download button is shown, and the error is reported with the text of
    the exception. *)
Theorem main_unreadable_upload (w : widgets) (s : session_state)
    (f : UploadedFile) (e : exn) :
  file_uploader w = Some f ->
  reader_pages (read f) = Raise e ->
  fst (main w s) = s /\
  filter is_download (snd (main w s)) = [] /\
  snd (main w s) =
  [st_caption "flattening your PDFs";
   st_success ("✅ Uploaded: " ++ name f)%string;
   st_caption ("Size: " ++ format_comma (size f) ++ " bytes")%string;
   st_error ("❌ Error reading PDF: " ++ str_exn e)%string;
   st_info "Please make sure you uploaded a valid PDF file."].
Proof.
intros Hfile Hread. unfold main. rewrite Hfile, Hread.
repeat split.
Qed.

(** One run never removes a key from the session. *)
Lemma main_keeps (w : widgets) (s : session_state) :
  let s' := fst (main w s) in
  (flattened_pdf s <> None -> flattened_pdf s' <> None) /\
  (protected_pdf s <> None -> protected_pdf s' <> None) /\
  (protection_settings s <> None -> protection_settings s' <> None) /\
  (page_images s <> None -> page_images s' <> None) /\
  (image_dpi s <> None -> image_dpi s' <> None) /\
  (image_pdf s <> None -> image_pdf s' <> None).
Proof.
cbv zeta.
destruct (file_uploader w) as [ f | ] eqn:Hfile.
- destruct (reader_pages (read f)) as [ reader | e ] eqn:Hread.
  + destruct (main_session_keys w s f reader Hfile Hread)
      as (H1 & H2 & H3 & H4 & H5 & H6).
    rewrite H1, H2, H3, H4, H5, H6. clear H1 H2 H3 H4 H5 H6.
    repeat split;
      repeat match goal with
        | |- context [ ran ?c ?r ] => destruct (ran c r)
        end; cbn [updated option_map]; intros H; try exact H; discriminate.
  + rewrite main_idle; [ tauto | ].
    intros f' reader Hf. rewrite Hfile in Hf. injection Hf as <-. congruence.
- rewrite main_idle; [ tauto | ].
  intros f reader Hf. congruence.
Qed.

(** X10. Nothing is ever taken out of the session: a result that is in it
    stays in it through any later runs, whatever is uploaded or clicked
    in them. *)
Theorem runs_keep_results (ws : list widgets) (s : session_state) :
  (flattened_pdf s <> None -> flattened_pdf (runs ws s) <> None) /\
  (protected_pdf s <> None -> protected_pdf (runs ws s) <> None) /\
  (protection_settings s <> None ->
   protection_settings (runs ws s) <> None) /\
  (page_images s <> None -> page_images (runs ws s) <> None) /\
  (image_dpi s <> None -> image_dpi (runs ws s) <> None) /\
  (image_pdf s <> None -> image_pdf (runs ws s) <> None).
Proof.
revert s. induction ws as [ | w ws IH ]; intros s.
- cbn [runs]. tauto.
- cbn [runs]. specialize (IH (fst (main w s))).
  pose proof (main_keeps w s) as Hk. cbv zeta in Hk.
  destruct IH as (I1 & I2 & I3 & I4 & I5 & I6).
  destruct Hk as (K1 & K2 & K3 & K4 & K5 & K6).
  repeat split; auto.
Qed.

(** One run keeps the keys of the session in agreement. *)
Lemma main_consistent (w : widgets) (s : session_state) :
  consistent s -> consistent (fst (main w s)).
Proof.
intros Hs.
destruct (file_uploader w) as [ f | ] eqn:Hfile.
- destruct (reader_pages (read f)) as [ reader | e ] eqn:Hread.
  + destruct (main_session_keys w s f reader Hfile Hread)
      as (_ & H2 & H3 & H4 & H5 & H6).
    destruct Hs as (Hp & Hi & Hb).
    unfold consistent. rewrite H2, H3, H4, H5, H6. clear H2 H3 H4 H5 H6.
    destruct (ran (button_protect w) _) as [ out | ].
    * destruct (ran (button_generate w) _) as [ v | ] eqn:Hv;
        destruct (ran (button_convert w) _) as [ v' | ] eqn:Hv';
        cbn [updated option_map];
        (split; [ split; discriminate | ]);
        unfold ran in Hv, Hv';
        destruct (button_generate w), (button_convert w);
        try discriminate;
        try (destruct (convert_to_image_pdf (read f) _ (Some true))
               as [ r | ] eqn:Hr; [ | discriminate ];
             injection Hv as <-; apply convert_kind in Hr);
        try (destruct (convert_to_image_pdf (read f) _ None)
               as [ r' | ] eqn:Hr'; [ | discriminate ];
             injection Hv' as <-; apply convert_kind in Hr');
        split; intros x Hx;
        try (injection Hx as <-; split; [ assumption | discriminate ]);
        try (destruct (Hi x Hx) as [Hk Hd]; split;
             [ exact Hk | (exact Hd || discriminate) ]);
        try (destruct (Hb x Hx) as [Hk Hd]; split;
             [ exact Hk | (exact Hd || discriminate) ]).
    * destruct (ran (button_generate w) _) as [ v | ] eqn:Hv;
        destruct (ran (button_convert w) _) as [ v' | ] eqn:Hv';
        cbn [updated option_map];
        (split; [ exact Hp | ]);
        unfold ran in Hv, Hv';
        destruct (button_generate w), (button_convert w);
        try discriminate;
        try (destruct (convert_to_image_pdf (read f) _ (Some true))
               as [ r | ] eqn:Hr; [ | discriminate ];
             injection Hv as <-; apply convert_kind in Hr);
        try (destruct (convert_to_image_pdf (read f) _ None)
               as [ r' | ] eqn:Hr'; [ | discriminate ];
             injection Hv' as <-; apply convert_kind in Hr');
        split; intros x Hx;
        try (injection Hx as <-; split; [ assumption | discriminate ]);
        try (destruct (Hi x Hx) as [Hk Hd]; split;
             [ exact Hk | (exact Hd || discriminate) ]);
        try (destruct (Hb x Hx) as [Hk Hd]; split;
             [ exact Hk | (exact Hd || discriminate) ]).
  + rewrite main_idle; [ exact Hs | ].
    intros f' reader Hf. rewrite Hfile in Hf. injection Hf as <-. congruence.
- rewrite main_idle; [ exact Hs | ].
  intros f reader Hf. congruence.
Qed.

Lemma empty_session_consistent : consistent empty_session.
Proof.
unfold consistent, empty_session. cbn.
repeat split; intros; discriminate.
Qed.

Lemma runs_consistent (ws : list widgets) (s : session_state) :
  consistent s -> consistent (runs ws s).
Proof.
revert s. induction ws as [ | w ws IH ]; intros s Hs; cbn [runs].
- exact Hs.
- apply IH. apply main_consistent. exact Hs.
Qed.

(** X11. In every session the script can reach from a new one, the keys
    agree: ["protected_pdf"] is there exactly when ["protection_settings"]
    is; ["page_images"] holds a list of images and ["image_pdf"] holds
    bytes, and whenever either is there so is ["image_dpi"]. *)
Theorem session_consistent (ws : list widgets) :
  consistent (runs ws empty_session).
Proof. apply runs_consistent. exact empty_session_consistent. Qed.

(** *** What is shown *)

Lemma messages_no_download (messages : list ui_event) :
  Forall (fun ev => is_message ev = true) messages ->
  filter is_download messages = [].
Proof.
induction 1 as [ | ev messages Hev _ IH ]; [ reflexivity | ].
cbn [filter]. destruct ev; try discriminate Hev; exact IH.
Qed.

Lemma image_grid_no_download (images : converted) (d : string) :
  filter is_download (image_grid images d) = [].
Proof.
unfold image_grid. generalize (enumerate 0 (elements images)).
intros l. induction l as [ | [idx img] l IH ]; [ reflexivity | ].
cbn [map filter is_download]. exact IH.
Qed.

Lemma preview_no_download (reader : list page) :
  filter is_download (preview reader) = [].
Proof.
unfold preview. destruct (index reader 0) as [ first_page | e ];
  cbn [bind]; [ | reflexivity ].
destruct (hasattr_extract_text first_page); [ | reflexivity ].
destruct (extract_text first_page) as [ t | e ]; cbn [bind];
  [ | reflexivity ].
destruct (strip_nonempty t); reflexivity.
Qed.

(** X12. On a readable upload the download buttons shown are, in this
    order: the original upload; the flattened, the protected and the image
    PDF when the session the run leaves has them - so also the result of a
    button clicked in this very run, and results made from an earlier
    upload.  Each carries the bytes of the session and a file name made of
    its prefix and the name of the file uploaded now. *)
Theorem main_downloads (w : widgets) (s : session_state) (f : UploadedFile)
    (reader : list page) :
  file_uploader w = Some f ->
  reader_pages (read f) = Ok reader ->
  let s' := fst (main w s) in
  filter is_download (snd (main w s)) =
  [st_download_button "📄 Download Original PDF" (pdf_bytes_of (read f))
     ("original_" ++ name f)%string "application/pdf" None]
  ++ match flattened_pdf s' with
     | Some data =>
         [st_download_button "📄 Download Flattened PDF" (pdf_bytes_of data)
            ("flattened_" ++ name f)%string "application/pdf" None]
     | None => []
     end
  ++ match protected_pdf s' with
     | Some data =>
         [st_download_button "🔒 Download Copy-Protected PDF"
            (pdf_bytes_of data) ("protected_" ++ name f)%string
            "application/pdf" (Some (help_text s'))]
     | None => []
     end
  ++ match image_pdf s' with
     | Some data =>
         [st_download_button "🖼️ Download Image PDF" data
            ("image_" ++ name f)%string "application/pdf"
            (Some ("PDF with pages converted to " ++ dpi_info s'
                   ++ " DPI images")%string)]
     | None => []
     end.
Proof.
intros Hfile Hread. cbv zeta.
destruct (main_shown w s f reader Hfile Hread) as (messages & Hm & ->).
generalize (fst (main w s)). intros s'.
rewrite !filter_app, (messages_no_download messages Hm), preview_no_download.
unfold downloads. rewrite !filter_app.
destruct (flattened_pdf s'), (protected_pdf s'), (image_pdf s'),
  (page_images s');
  cbn [filter is_download app];
  rewrite ?image_grid_no_download, ?app_nil_r; reflexivity.
Qed.

Lemma enumerate_nth {A : Type} (xs : list A) (k i : nat) :
  nth_error (enumerate k xs) i
  = option_map (fun x => ((k + i)%nat, x)) (nth_error xs i).
Proof.
revert k i. induction xs as [ | x xs IH ]; intros k i.
- destruct i; reflexivity.
- destruct i as [ | i ]; cbn [enumerate nth_error option_map].
  + rewrite Nat.add_0_r. reflexivity.
  + rewrite IH. rewrite Nat.add_succ_r. reflexivity.
Qed.

Lemma enumerate_length {A : Type} (xs : list A) (k : nat) :
  List.length (enumerate k xs) = List.length xs.
Proof.
revert k. induction xs as [ | x xs IH ]; intros k; [ reflexivity | ].
cbn [enumerate List.length]. rewrite IH. reflexivity.
Qed.

(** X13. The preview grid shows one picture per image, in page order: the
    image of index [i] goes to column [i mod 2] - left, right, left, ... -
    under the caption "Page i+1 (d DPI)". *)
Theorem image_grid_layout (images : list Image) (d : string) (i : nat)
    (img : Image) :
  nth_error images i = Some img ->
  nth_error (image_grid (image_list images) d) i
  = Some (st_image (i mod 2) (an_image img)
            ("Page " ++ str_int (Z.of_nat (i + 1)) ++ " (" ++ d
             ++ " DPI)")%string) /\
  List.length (image_grid (image_list images) d) = List.length images.
Proof.
intros Hi. unfold image_grid. split.
- rewrite nth_error_map, enumerate_nth. cbn [elements].
  rewrite nth_error_map, Hi. reflexivity.
- rewrite length_map, enumerate_length. cbn [elements].
  apply length_map.
Qed.

Lemma message_well_formed (ev : ui_event) :
  is_message ev = true -> well_formed ev.
Proof. destruct ev; intros H; try discriminate H; exact I. Qed.

Lemma enumerate_in {A : Type} (xs : list A) (k i : nat) (x : A) :
  In (i, x) (enumerate k xs) -> In x xs.
Proof.
revert k. induction xs as [ | a xs IH ]; intros k H; [ exact H | ].
destruct H as [ H | H ].
- injection H as _ ->. left. reflexivity.
- right. exact (IH _ H).
Qed.

Lemma image_grid_well_formed (images : list Image) (d : string) :
  Forall well_formed (image_grid (image_list images) d).
Proof.
unfold image_grid. cbn [elements]. apply Forall_forall. intros ev Hev.
apply in_map_iff in Hev. destruct Hev as ([idx x] & <- & Hin).
apply enumerate_in, in_map_iff in Hin. destruct Hin as (img & <- & _).
exact I.
Qed.

Lemma preview_well_formed (reader : list page) :
  Forall well_formed (preview reader).
Proof.
unfold preview. destruct (index reader 0) as [ first_page | e ];
  cbn [bind]; [ | repeat constructor ].
destruct (hasattr_extract_text first_page); [ | constructor ].
destruct (extract_text first_page) as [ t | e ]; cbn [bind];
  [ | repeat constructor ].
destruct (strip_nonempty t); repeat constructor.
Qed.

Lemma help_text_settings (s : session_state) :
  protection_settings s <> None ->
  help_text s <> "Copy-protected PDF with custom permissions"%string.
Proof.
unfold help_text. destruct (protection_settings s) as [ st | ];
  [ intros _ | intros H; exfalso; exact (H eq_refl) ].
cbv zeta. intros H.
destruct (text_selection st), (interactive st); discriminate H.
Qed.

Lemma downloads_well_formed (f : UploadedFile) (pdf_bytes : bytes)
    (s : session_state) :
  consistent s -> Forall well_formed (downloads f pdf_bytes s).
Proof.
intros (Hp & Hi & Hb). unfold downloads.
repeat (apply Forall_app; split).
- constructor; [ exact I | constructor ].
- destruct (flattened_pdf s); constructor; [ exact I | constructor ].
- destruct (protected_pdf s) as [ data | ] eqn:Hd; constructor;
    [ | constructor ].
  cbn [well_formed]. apply help_text_settings.
  intros Hn. apply Hp in Hn. discriminate Hn.
- destruct (image_pdf s) as [ v | ] eqn:Hv; constructor; [ | constructor ].
  destruct (Hb v eq_refl) as [(b & ->) _]. cbn [well_formed].
  intros H. discriminate H.
- destruct (page_images s) as [ v | ] eqn:Hv; constructor.
  + exact I.
  + destruct (Hi v eq_refl) as [(images & ->) _].
    apply image_grid_well_formed.
Qed.

(** X14. In every run from a session the script can reach, each call gets
    what it is written for: [st.image] is given an image, never an item of
    a bytes object; [st.download_button] is given bytes, never a list of
    images; and the help text of a download is never the fallback of line
    344, which needs ["protected_pdf"] without ["protection_settings"]. *)
Theorem main_well_formed (ws : list widgets) (w : widgets) :
  Forall well_formed (snd (main w (runs ws empty_session))).
Proof.
pose proof (runs_consistent ws _ empty_session_consistent) as Hs.
generalize dependent (runs ws empty_session). intros s Hs.
destruct (file_uploader w) as [ f | ] eqn:Hfile.
- destruct (reader_pages (read f)) as [ reader | e ] eqn:Hread.
  + destruct (main_shown w s f reader Hfile Hread) as (messages & Hm & ->).
    apply Forall_app; split;
      [ | apply Forall_app; split; [ | apply Forall_app; split ] ].
    * repeat constructor.
    * apply Forall_forall. intros ev Hev. apply message_well_formed.
      rewrite Forall_forall in Hm. apply Hm. exact Hev.
    * apply downloads_well_formed. apply main_consistent. exact Hs.
    * apply preview_well_formed.
  + unfold main. rewrite Hfile, Hread. cbn [snd app]. repeat constructor.
- unfold main. rewrite Hfile. cbn [snd app]. repeat constructor.
Qed.

(** X15. The DPI shown with the preview images is the slider value of
    the last conversion of either kind, not the one the images were
    rendered at: a run in which only "Convert to Image PDF" is clicked and
    succeeds leaves the images as they were and shows them captioned with
    the slider value of this run. *)
Theorem convert_relabels_images (w : widgets) (s : session_state)
    (f : UploadedFile) (reader : list page) (pdf images : converted) :
  file_uploader w = Some f ->
  reader_pages (read f) = Ok reader ->
  button_generate w = false ->
  button_convert w = true ->
  convert_to_image_pdf (read f) (Some (slider_dpi w)) None = Ok pdf ->
  page_images s = Some images ->
  page_images (fst (main w s)) = Some images /\
  image_dpi (fst (main w s)) = Some (slider_dpi w) /\
  forall ev, In ev (image_grid images (str_int (slider_dpi w))) ->
             In ev (snd (main w s)).
Proof.
intros Hfile Hread Hg Hc Hpdf Himages.
destruct (main_session_keys w s f reader Hfile Hread)
  as (_ & _ & _ & H4 & _ & H6).
rewrite Hg, Hc, Hpdf in *. cbn [ran updated] in H4, H6.
rewrite Himages in H4.
split; [ exact H4 | ]. split; [ exact H6 | ].
intros ev Hev.
destruct (main_shown w s f reader Hfile Hread) as (messages & _ & ->).
apply in_or_app. right. apply in_or_app. right. apply in_or_app. left.
unfold downloads. rewrite H4. unfold dpi_info. rewrite H6.
apply in_or_app. right. apply in_or_app. right. apply in_or_app. right.
apply in_or_app. right. right. exact Hev.
Qed.

Lemma permissions_marks (a t : bool) :
  Z.testbit (permissions a t) 4 = t /\ Z.testbit (permissions a t) 8 = a.
Proof. destruct a, t; split; reflexivity. Qed.

(** X16. What the protected download says is what was enforced: after a
    run in which "Apply Copy Protection" succeeds, the session holds the
    bytes of a writer encrypted with the mask of the two check boxes, and
    the help text of the download marks text selection as allowed exactly
    when that mask has the copy bit (value 16) and interactive elements
    exactly when it has the form-filling bit (value 256). *)
Theorem protected_download_matches_mask (w : widgets) (s : session_state)
    (f : UploadedFile) (reader : list page) (out : bytes) :
  file_uploader w = Some f ->
  reader_pages (read f) = Ok reader ->
  button_protect w = true ->
  restrict_copying_pdf (read f) (Some (checkbox_interactive w))
    (Some (checkbox_text_selection w)) = Ok out ->
  let s' := fst (main w s) in
  let mask :=
    permissions (checkbox_interactive w) (checkbox_text_selection w) in
  protected_pdf s' = Some out /\
  (exists writer : PdfWriter,
      writer_write writer = Ok out /\
      writer_pages writer = reader /\
      writer_permissions writer = [mask]) /\
  help_text s'
  = ("Text selection: " ++ (if Z.testbit mask 4 then "✅" else "❌")
     ++ " | Interactive elements: "
     ++ (if Z.testbit mask 8 then "✅" else "❌"))%string.
Proof.
intros Hfile Hread Hclick Hout. cbv zeta.
destruct (main_session_keys w s f reader Hfile Hread)
  as (_ & H2 & H3 & _).
rewrite Hclick, Hout in *. cbn [ran updated option_map] in H2, H3.
split; [ exact H2 | ]. split.
- unfold restrict_copying_pdf in Hout. cbn [arg] in Hout.
  destruct (protected_writer (read f) _ _) as [ writer | e ] eqn:Hw;
    [ | discriminate Hout ].
  cbn [bind] in Hout. exists writer. split; [ exact Hout | ].
  apply protected_writer_ok in Hw. destruct Hw as (pages & Hp & _ & ->).
  rewrite Hread in Hp. injection Hp as <-.
  split; [ apply protection_calls_pages | apply protection_calls_permissions ].
- unfold help_text. rewrite H3. cbn [text_selection interactive].
  destruct (permissions_marks (checkbox_interactive w)
              (checkbox_text_selection w)) as [-> ->].
  reflexivity.
Qed.

(** X17. A PDF without pages is still served: the run reports zero pages,
    offers the original for download, and the preview of the first page
    ends in the warning for the [IndexError] of [reader.pages[0]]. *)
Theorem main_no_pages (w : widgets) (s : session_state) (f : UploadedFile) :
  file_uploader w = Some f ->
  reader_pages (read f) = Ok [] ->
  let shown := snd (main w s) in
  In (st_info ("📊 PDF Info: " ++ str_int 0 ++ " page(s)")%string) shown /\
  In (st_download_button "📄 Download Original PDF" (pdf_bytes_of (read f))
        ("original_" ++ name f)%string "application/pdf" None) shown /\
  exists before,
    shown = before
            ++ [st_warning ("⚠️ Could not extract preview: "
                            ++ str_exn IndexError)%string].
Proof.
intros Hfile Hread. cbv zeta.
destruct (main_shown w s f [] Hfile Hread) as (messages & _ & ->).
split; [ | split ].
- right. right. right. left. reflexivity.
- apply in_or_app. right. apply in_or_app. right. apply in_or_app. left.
  unfold downloads. left. reflexivity.
- eexists. rewrite !app_assoc. reflexivity.
Qed.

End AppFacts.

(** ** The further statements on the small engines *)

Lemma flatten_pdf_pages_witness :
  @flatten_pdf Toy.pypdf Toy.pages_api Toy.doc3 = Ok [x01; x12; x03]%byte.
Proof.
apply (proj2 (@flatten_pdf_pages Toy.pypdf Toy.pages_api Toy.doc3
                [x01; x12; x03]%byte)).
exists Toy.doc3, [x01; x12; x03]%byte.
repeat split; repeat constructor.
Defined.

Lemma flatten_pdf_plain_witness :
  @reader_pages Toy.pypdf [x01; x03]%byte = Ok [x01; x03]%byte /\
  (forall p, In p [x01; x03]%byte -> Toy.annotated p = false) /\
  @protected_writer Toy.pypdf [x01; x03]%byte false true
  = Ok (@protection_calls Toy.pypdf [x01; x03]%byte false true) /\
  @flattened_writer Toy.pypdf Toy.pages_api [x01; x03]%byte
  = Ok [add_page x01; add_page x03]%byte.
Proof.
assert (Hplain : forall p, In p [x01; x03]%byte -> Toy.annotated p = false).
{ intros p [ <- | [ <- | [] ] ]; reflexivity. }
split; [ reflexivity | split; [ exact Hplain | split; [ reflexivity | ] ] ].
apply (@flatten_pdf_plain Toy.pypdf Toy.pages_api [x01; x03]%byte
         [x01; x03]%byte false true
         (@protection_calls Toy.pypdf [x01; x03]%byte false true)
         eq_refl Hplain eq_refl).
Defined.

Lemma flatten_pdf_merge_raises_witness :
  @reader_pages Toy.pypdf [x01; x04]%byte = Ok [x01; x04]%byte /\
  In x04%byte [x01; x04]%byte /\
  Toy.annotated x04 = true /\
  Toy.merge x04 x04 = Raise (LibraryError "cannot merge") /\
  exists e' : exn,
    @flatten_pdf Toy.pypdf Toy.pages_api [x01; x04]%byte = Raise e'.
Proof.
assert (Hin : In x04%byte [x01; x04]%byte) by (right; left; reflexivity).
split; [ reflexivity | split; [ exact Hin | ] ].
split; [ reflexivity | split; [ reflexivity | ] ].
exact (@flatten_pdf_merge_raises Toy.pypdf Toy.pages_api [x01; x04]%byte
         [x01; x04]%byte x04%byte (LibraryError "cannot merge")
         eq_refl Hin eq_refl eq_refl).
Defined.

Lemma convert_to_image_pdf_close_raises_witness :
  @fitz_open Edge.raster [x01]%byte "pdf"%string = Ok [x01]%byte /\
  @close Edge.raster [x01]%byte = Some (LibraryError "cannot close") /\
  exists e' : exn,
    @convert_to_image_pdf Toy.pypdf Edge.raster [x01]%byte None (Some true)
    = Raise e'.
Proof.
split; [ reflexivity | split; [ reflexivity | ] ].
exact (proj1 (@convert_to_image_pdf_close_raises Toy.pypdf Edge.raster
                [x01]%byte None (Some true) [x01]%byte
                (LibraryError "cannot close") eq_refl eq_refl)).
Defined.

Lemma convert_to_image_pdf_first_failure_witness :
  @fitz_open Edge.raster [x01; x04; x03]%byte "pdf"%string
  = Ok [x01; x04; x03]%byte /\
  @render_page Edge.raster [x01; x04; x03]%byte 150 1
  = Raise (LibraryError "cannot render") /\
  @convert_to_image_pdf Toy.pypdf Edge.raster [x01; x04; x03]%byte None
    (Some true)
  = Raise (LibraryError "cannot render").
Proof.
split; [ reflexivity | split; [ reflexivity | ] ].
apply (@convert_to_image_pdf_first_failure Toy.pypdf Edge.raster
         [x01; x04; x03]%byte None [x01; x04; x03]%byte 1%nat
         (LibraryError "cannot render") eq_refl).
- cbn. lia.
- reflexivity.
- intros j Hj. assert (j = 0%nat) as -> by lia.
  exists x01%byte. reflexivity.
Defined.

Lemma convert_to_image_pdf_no_pages_witness :
  @fitz_open Edge.raster [] "pdf"%string = Ok [] /\
  @page_count Edge.raster [] = 0%nat /\
  @close Edge.raster [] = None /\
  @convert_to_image_pdf Toy.pypdf Edge.raster [] None (Some true)
  = Ok (@image_list Edge.raster []).
Proof.
split; [ reflexivity | split; [ reflexivity | split; [ reflexivity | ] ] ].
exact (proj1 (@convert_to_image_pdf_no_pages Toy.pypdf Edge.raster [] None
                [] eq_refl eq_refl eq_refl)).
Defined.

Lemma main_session_witness :
  file_uploader (Toy.click Toy.doc3 true false false false)
  = Some (Toy.upload Toy.doc3) /\
  @reader_pages Toy.pypdf (read (Toy.upload Toy.doc3)) = Ok Toy.doc3 /\
  flattened_pdf
    (fst (@main Toy.pypdf Toy.pages_api Toy.raster Toy.py
            (Toy.click Toy.doc3 true false false false) empty_session))
  = Some [x01; x12; x03]%byte.
Proof.
split; [ reflexivity | split; [ reflexivity | ] ].
destruct (@main_session Toy.pypdf Toy.pages_api Toy.raster Toy.py
            (Toy.click Toy.doc3 true false false false) empty_session
            (Toy.upload Toy.doc3) Toy.doc3 eq_refl eq_refl) as (H & _).
exact (eq_trans H eq_refl).
Defined.

Lemma main_unreadable_upload_witness :
  file_uploader (Toy.click [] true true true true) = Some (Toy.upload []) /\
  @reader_pages Toy.pypdf (read (Toy.upload [])) = Raise Toy.not_a_pdf /\
  fst (@main Toy.pypdf Toy.pages_api Toy.raster Toy.py
         (Toy.click [] true true true true) empty_session)
  = empty_session.
Proof.
split; [ reflexivity | split; [ reflexivity | ] ].
exact (proj1 (@main_unreadable_upload Toy.pypdf Toy.pages_api Toy.raster
                Toy.py (Toy.click [] true true true true) empty_session
                (Toy.upload []) Toy.not_a_pdf eq_refl eq_refl)).
Defined.

Lemma main_downloads_witness :
  file_uploader (Toy.click Toy.doc3 true false false false)
  = Some (Toy.upload Toy.doc3) /\
  @reader_pages Toy.pypdf (read (Toy.upload Toy.doc3)) = Ok Toy.doc3 /\
  List.length
    (filter is_download
       (snd (@main Toy.pypdf Toy.pages_api Toy.raster Toy.py
               (Toy.click Toy.doc3 true false false false) empty_session)))
  = 2%nat.
Proof.
split; [ reflexivity | split; [ reflexivity | ] ].
pose proof (@main_downloads Toy.pypdf Toy.pages_api Toy.raster Toy.py
              (Toy.click Toy.doc3 true false false false) empty_session
              (Toy.upload Toy.doc3) Toy.doc3 eq_refl eq_refl) as H.
cbv zeta in H. rewrite H. reflexivity.
Defined.

Lemma image_grid_layout_witness :
  nth_error [x01; x02; x03]%byte 2 = Some x03%byte /\
  nth_error
    (@image_grid Toy.pypdf Toy.pages_api Toy.raster Toy.py
       (@image_list Toy.raster [x01; x02; x03]%byte) "150") 2
  = Some (@st_image Toy.pypdf Toy.pages_api Toy.raster 0
            (@an_image Toy.raster x03%byte) "Page 3 (150 DPI)").
Proof.
split; [ reflexivity | ].
exact (proj1 (@image_grid_layout Toy.pypdf Toy.pages_api Toy.raster Toy.py
                [x01; x02; x03]%byte "150" 2%nat x03%byte eq_refl)).
Defined.

Lemma convert_relabels_images_witness :
  @convert_to_image_pdf Toy.pypdf Toy.raster Toy.doc3 (Some 150) None
  = Ok (@pdf_bytes_of Toy.raster Toy.doc3) /\
  image_dpi
    (fst (@main Toy.pypdf Toy.pages_api Toy.raster Toy.py
            (Toy.click Toy.doc3 false false false true)
            {| flattened_pdf := None; protected_pdf := None;
               protection_settings := None;
               page_images := Some (@image_list Toy.raster [x09]%byte);
               image_dpi := Some 72;
               image_pdf := None |}))
  = Some 150.
Proof.
split; [ reflexivity | ].
exact (proj1 (proj2
  (@convert_relabels_images Toy.pypdf Toy.pages_api Toy.raster Toy.py
     (Toy.click Toy.doc3 false false false true)
     {| flattened_pdf := None; protected_pdf := None;
        protection_settings := None;
        page_images := Some (@image_list Toy.raster [x09]%byte);
        image_dpi := Some 72;
        image_pdf := None |}
     (Toy.upload Toy.doc3) Toy.doc3 (@pdf_bytes_of Toy.raster Toy.doc3)
     (@image_list Toy.raster [x09]%byte)
     eq_refl eq_refl eq_refl eq_refl eq_refl eq_refl))).
Defined.

Lemma protected_download_matches_mask_witness :
  @restrict_copying_pdf Toy.pypdf (read (Toy.upload Toy.doc3)) (Some false)
    (Some false) = Ok Toy.doc3 /\
  protected_pdf
    (fst (@main Toy.pypdf Toy.pages_api Toy.raster Toy.py
            (Toy.click Toy.doc3 false true false false) empty_session))
  = Some Toy.doc3.
Proof.
split; [ reflexivity | ].
exact (proj1
  (@protected_download_matches_mask Toy.pypdf Toy.pages_api Toy.raster Toy.py
     (Toy.click Toy.doc3 false true false false) empty_session
     (Toy.upload Toy.doc3) Toy.doc3 Toy.doc3
     eq_refl eq_refl eq_refl eq_refl)).
Defined.

Lemma main_no_pages_witness :
  file_uploader (Toy.click [] false false false false)
  = Some (Toy.upload []) /\
  @reader_pages Edge.pypdf (read (Toy.upload [])) = Ok [] /\
  In (@st_info Edge.pypdf Edge.pages_api Toy.raster "📊 PDF Info: 0 page(s)")
     (snd (@main Edge.pypdf Edge.pages_api Toy.raster Toy.py
             (Toy.click [] false false false false) empty_session)).
Proof.
split; [ reflexivity | split; [ reflexivity | ] ].
exact (proj1
  (@main_no_pages Edge.pypdf Edge.pages_api Toy.raster Toy.py
     (Toy.click [] false false false false) empty_session
     (Toy.upload []) eq_refl eq_refl)).
Defined.

Lemma runs_keep_results_witness :
  flattened_pdf
    (fst (@main Toy.pypdf Toy.pages_api Toy.raster Toy.py
            (Toy.click Toy.doc3 true false false false) empty_session))
  <> None /\
  flattened_pdf
    (@runs Toy.pypdf Toy.pages_api Toy.raster Toy.py
       [Toy.click [] true true true true;
        Toy.click [x01; x04]%byte true false false false]
       (fst (@main Toy.pypdf Toy.pages_api Toy.raster Toy.py
               (Toy.click Toy.doc3 true false false false) empty_session)))
  <> None.
Proof.
assert (H : flattened_pdf
              (fst (@main Toy.pypdf Toy.pages_api Toy.raster Toy.py
                      (Toy.click Toy.doc3 true false false false)
                      empty_session)) <> None) by discriminate.
split; [ exact H | ].
exact (proj1
  (@runs_keep_results Toy.pypdf Toy.pages_api Toy.raster Toy.py
     [Toy.click [] true true true true;
      Toy.click [x01; x04]%byte true false false false]
     (fst (@main Toy.pypdf Toy.pages_api Toy.raster Toy.py
             (Toy.click Toy.doc3 true false false false) empty_session)))
  H).
Defined.
